(** * rootpy.tree.filtering: cut-flow filters, filter lists and their merge

    A shallow embedding of [rootpy/tree/filtering.py].  Python integers are
    [Z], the [details] dictionary is a [gmap string Z], a method that
    mutates [self] is a state transformer on the attributes of [self], and an
    exception is the [Raise] outcome of a computation: the state reached
    before the [raise] is kept, as in Python. *)

From Stdlib Require Import ZArith Lia.
From stdpp Require Import base gmap strings list functions.

(** ** Exceptions and computations *)

(** The exception classes the module raises itself ([ValueError],
    [TypeError], [NotImplementedError]), those the interpreter raises on its
    behalf ([KeyError] for a missing dictionary key, [AttributeError],
    [IndexError]), and [Exception] for whatever an override raises. *)
Inductive exn : Type :=
  | ValueError
  | KeyError
  | TypeError
  | IndexError
  | AttributeError
  | NotImplementedError
  | Exception (msg : string).

Inductive result (A : Type) : Type :=
  | Return (a : A)
  | Raise (e : exn).
Arguments Return {A} a.
Arguments Raise {A} e.

Definition raised {A} (r : result A) : Prop :=
  match r with Return _ => False | Raise _ => True end.

(** A computation over a mutable state [S]: it ends in a state and either
    returns a value or raises. *)
Definition M (S A : Type) : Type := S → S * result A.

Definition ret {S A} (a : A) : M S A := λ s, (s, Return a).
Definition raise {S A} (e : exn) : M S A := λ s, (s, Raise e).
Definition lift {S A} (r : result A) : M S A := λ s, (s, r).
Definition get {S} : M S S := λ s, (s, Return s).
Definition modify {S} (f : S → S) : M S unit := λ s, (f s, Return tt).
Definition bind {S A B} (m : M S A) (k : A → M S B) : M S B :=
  λ s, match m s with
       | (s', Return a) => k a s'
       | (s', Raise e) => (s', Raise e)
       end.

Declare Scope py_scope.
Delimit Scope py_scope with py.
Notation "'let*' x ':=' m 'in' k" := (bind m (λ x, k))
  (at level 10, x name, m at level 100, k at level 200) : py_scope.
Notation "'do' m 'then' k" := (bind m (λ _, k))
  (at level 10, m at level 100, k at level 200) : py_scope.
Open Scope py_scope.

(** [for x in xs: body(x)] *)
Fixpoint for_each {S A} (xs : list A) (body : A → M S unit) : M S unit :=
  match xs with
  | [] => ret tt
  | x :: rest => do body x then for_each rest body
  end.

Section Filtering.

(** Events, the objects of a collection and the targets of hooks are opaque
    to the module. *)
Variables (Event Item Hook : Type).

(** What [self.target( *self.args)] does for a hook: like every external
    callable it returns or raises. *)
Variable target : Hook → result unit.

(** ** class Filter *)

(** The attributes [Filter.__init__] sets. *)
Record Filter : Type := mkFilter {
  total : Z;
  passing : Z;
  details : gmap string Z;
  name : string;
  hooks : option (list Hook);
  passthrough : bool;
}.

(** [Filter.__init__(self, hooks=None, passthrough=False)]; [cls_name] is
    [self.__class__.__name__]. *)
Definition Filter___init__ (cls_name : string) (hooks : option (list Hook))
    (passthrough : bool) : Filter :=
  {| total := 0; passing := 0; details := ∅; name := cls_name;
     hooks := hooks; passthrough := passthrough |}.

Definition set_total (v : Z) (f : Filter) : Filter :=
  mkFilter v (passing f) (details f) (name f) (hooks f) (passthrough f).
Definition set_passing (v : Z) (f : Filter) : Filter :=
  mkFilter (total f) v (details f) (name f) (hooks f) (passthrough f).
Definition set_details (v : gmap string Z) (f : Filter) : Filter :=
  mkFilter (total f) (passing f) v (name f) (hooks f) (passthrough f).
Definition set_name (v : string) (f : Filter) : Filter :=
  mkFilter (total f) (passing f) (details f) v (hooks f) (passthrough f).

(** ** class EventFilter(Filter), class ObjectFilter(Filter) *)

(** An instance carries the attributes of its base class and the method its
    class resolves [passes] (resp. [filtered]) to.  The method is modelled by
    its outcome on its arguments: the value it returns or the exception it
    raises. *)
Record EventFilter : Type := mkEventFilter {
  ef_base :> Filter;
  passes : Event → result bool;
}.

Record ObjectFilter : Type := mkObjectFilter {
  of_base :> Filter;
  count_events : bool;
  filtered : Event → list Item → result (list Item);
}.

(** What a Python variable of this module may hold. *)
Inductive pyval : Type :=
  | PyNone
  | PyInt (z : Z)
  | PyFilter (f : Filter)
  | PyEventFilter (f : EventFilter)
  | PyObjectFilter (f : ObjectFilter).

(** [isinstance(v, Filter)], [isinstance(v, EventFilter)],
    [isinstance(v, ObjectFilter)] *)
Definition isinstance_Filter (v : pyval) : bool :=
  match v with
  | PyFilter _ | PyEventFilter _ | PyObjectFilter _ => true
  | PyNone | PyInt _ => false
  end.
Definition isinstance_EventFilter (v : pyval) : bool :=
  match v with PyEventFilter _ => true | _ => false end.
Definition isinstance_ObjectFilter (v : pyval) : bool :=
  match v with PyObjectFilter _ => true | _ => false end.

(** The [Filter] attributes of a value, [None] when it has none. *)
Definition attributes (v : pyval) : option Filter :=
  match v with
  | PyFilter f => Some f
  | PyEventFilter f => Some (ef_base f)
  | PyObjectFilter f => Some (of_base f)
  | PyNone | PyInt _ => None
  end.

(** ** Filter.add *)

(** [[(detail, left.details[detail] + right.details[detail])
      for detail in left.details.keys()]], over the items of [left.details]:
    the first key that [right.details] lacks raises [KeyError]. *)
Fixpoint summed_items (right : gmap string Z) (items : list (string * Z))
    : result (list (string * Z)) :=
  match items with
  | [] => Return []
  | (detail, x) :: rest =>
      match right !! detail with
      | None => Raise KeyError
      | Some y =>
          match summed_items right rest with
          | Return l => Return ((detail, (x + y)%Z) :: l)
          | Raise e => Raise e
          end
      end
  end.

(** [dict([... for detail in left.details.keys()])] *)
Definition summed_details (left right : gmap string Z) : result (gmap string Z) :=
  match summed_items right (map_to_list left) with
  | Return l => Return (list_to_map l)
  | Raise e => Raise e
  end.

(** Lines 56-59 of [Filter.add], run on the state of the local [newfilter].
    The body ends without a [return] statement, so the call evaluates to
    [None]. *)
Definition Filter_add_body (left right : Filter) : M Filter pyval :=
  do modify (set_name (name left)) then
  do modify (set_total (total left + total right)) then
  do modify (set_passing (passing left + passing right)) then
  let* d := lift (summed_details (details left) (details right)) in
  do modify (set_details d) then
  ret PyNone.

(** [newfilter = Filter()] *)
Definition Filter_add_fresh : Filter := Filter___init__ "Filter" None false.

(** [Filter.add(left, right)]: the state of [newfilter] when the call ends,
    and the outcome of the call. *)
Definition Filter_add_run (left right : Filter) : Filter * result pyval :=
  Filter_add_body left right Filter_add_fresh.

Definition Filter_add (left right : Filter) : result pyval :=
  if negb (String.eqb (name left) (name right)) then Raise ValueError
  else (Filter_add_run left right).2.

(** The object [Filter.add] has built when it ends without raising. *)
Definition Filter_add_newfilter (left right : Filter) : Filter :=
  (Filter_add_run left right).1.

(** [f1 + f2]: [Filter.__add__(self, other)] is [Filter.add(self, other)];
    a left operand that is not a [Filter] has no [__add__] taking a filter
    ([TypeError]), a right operand without attributes fails on
    [right.name] ([AttributeError]). *)
Definition Filter___add__ (self other : pyval) : result pyval :=
  match attributes self with
  | None => Raise TypeError
  | Some self_attrs =>
      match attributes other with
      | None => Raise AttributeError
      | Some other_attrs => Filter_add self_attrs other_attrs
      end
  end.

(** ** class FilterList(list) and its subclasses: membership *)

(** A list method is a computation on the contents of [self].  The built-in
    [list.append(self, x)]: *)
Definition list_append (x : pyval) : M (list pyval) unit :=
  modify (λ self, self ++ [x]).

(** The built-in [list.__setitem__(self, index, value)], called with the
    arguments [args]: any other number of arguments, or an index that is not
    an integer, is a [TypeError]; an index out of range is an [IndexError]
    (slices are left out). *)
Definition list___setitem__ (args : list pyval) : M (list pyval) unit :=
  match args with
  | [PyInt index; value] =>
      let* self := get in
      let n := Z.of_nat (length self) in
      let i := if (index <? 0)%Z then (index + n)%Z else index in
      if ((0 <=? i)%Z && (i <? n)%Z)%bool
      then modify (λ self, <[Z.to_nat i := value]> self)
      else raise IndexError
  | _ => raise TypeError
  end.


(** [FilterList.__setitem__(self, filter)] is declared with one parameter
    besides [self]: the statement [self[index] = stage] calls it with two and
    fails on the arity, and a call with one reaches [list.__setitem__] with one
    argument. *)
Definition FilterList___setitem__ (args : list pyval) : M (list pyval) unit :=
  match args with
  | [filter] =>
      if negb (isinstance_Filter filter) then raise TypeError
      else list___setitem__ [filter]
  | _ => raise TypeError
  end.

Definition FilterList_append (filter : pyval) : M (list pyval) unit :=
  if negb (isinstance_Filter filter) then raise TypeError
  else list_append filter.

Definition EventFilterList___setitem__ (args : list pyval) : M (list pyval) unit :=
  match args with
  | [filter] =>
      if negb (isinstance_EventFilter filter) then raise TypeError
      else FilterList___setitem__ [filter]
  | _ => raise TypeError
  end.

Definition EventFilterList_append (filter : pyval) : M (list pyval) unit :=
  if negb (isinstance_EventFilter filter) then raise TypeError
  else FilterList_append filter.

Definition ObjectFilterList___setitem__ (args : list pyval) : M (list pyval) unit :=
  match args with
  | [filter] =>
      if negb (isinstance_ObjectFilter filter) then raise TypeError
      else FilterList___setitem__ [filter]
  | _ => raise TypeError
  end.

Definition ObjectFilterList_append (filter : pyval) : M (list pyval) unit :=
  if negb (isinstance_ObjectFilter filter) then raise TypeError
  else FilterList_append filter.


(** ** FilterList.merge *)

(** The loop of [merge], on the contents of the local [filterlist]:
    [for f1,f2 in zip(list1,list2): filterlist.append(f1+f2)]. *)
Definition merge_loop (list1 list2 : list pyval) : M (list pyval) unit :=
  for_each (zip list1 list2) (λ pair,
    let* sum := lift (Filter___add__ pair.1 pair.2) in
    FilterList_append sum).

(** [FilterList.merge(list1, list2)]: [filterlist = FilterList()], the loop,
    [return filterlist].  An exception leaves the caller without a list. *)
Definition FilterList_merge (list1 list2 : list pyval) : result (list pyval) :=
  match merge_loop list1 list2 [] with
  | (filterlist, Return _) => Return filterlist
  | (_, Raise e) => Raise e
  end.

(** ** Evaluation of one stage *)

(** The calls a stage makes out of the module while it is evaluated, and
    the call of a stage by a list; they are recorded so that the property
    that a method is not invoked can be stated. *)
Inductive call : Type :=
  | CallPasses (event : Event)
  | CallFiltered (event : Event) (collection : list Item)
  | CallHook (hook : Hook)
  | CallStage (event : Event).

(** The state a method of a stage runs on: the attributes of [self] and
    the calls made so far. *)
Record frame (T : Type) : Type := mkFrame { obj : T; trace : list call }.
Arguments mkFrame {T} obj trace.
Arguments obj {T} f.
Arguments trace {T} f.

Definition get_self {T} : M (frame T) T := λ s, (s, Return (obj s)).
Definition update_self {T} (g : T → T) : M (frame T) unit :=
  modify (λ s, mkFrame (g (obj s)) (trace s)).
Definition emit {T} (c : call) : M (frame T) unit :=
  modify (λ s, mkFrame (obj s) (trace s ++ [c])).

Definition ef_update (g : Filter → Filter) (o : EventFilter) : EventFilter :=
  mkEventFilter (g (ef_base o)) (passes o).
Definition of_update (g : Filter → Filter) (o : ObjectFilter) : ObjectFilter :=
  mkObjectFilter (g (of_base o)) (count_events o) (filtered o).

(** [self.total += n], [self.passing += n] *)
Definition add_total (n : Z) (f : Filter) : Filter := set_total (total f + n) f.
Definition add_passing (n : Z) (f : Filter) : Filter := set_passing (passing f + n) f.

(** [hook()]: [FilterHook.__call__] applies the target to the bound
    arguments and returns nothing; the call is recorded, and an exception of
    the target leaves it. *)
Definition FilterHook___call__ {T} (hook : Hook) : M (frame T) unit :=
  do emit (CallHook hook) then
  lift (target hook).

(** The truth value of [self.hooks]: [None] and the empty list are false. *)
Definition truth_of_hooks (hs : option (list Hook)) : bool :=
  match hs with
  | Some (_ :: _) => true
  | Some [] | None => false
  end.

(** [EventFilter.passes] and [ObjectFilter.filtered] as the base classes
    define them. *)
Definition EventFilter_passes : Event → result bool :=
  λ _, Raise NotImplementedError.
Definition ObjectFilter_filtered : Event → list Item → result (list Item) :=
  λ _ _, Raise NotImplementedError.

(** [self.passes(event)] *)
Definition call_passes (event : Event) : M (frame EventFilter) bool :=
  do emit (CallPasses event) then
  let* self := get_self in
  lift (passes self event).

(** [self.filtered(event, collection)] *)
Definition call_filtered (event : Event) (collection : list Item)
    : M (frame ObjectFilter) (list Item) :=
  do emit (CallFiltered event collection) then
  let* self := get_self in
  lift (filtered self event collection).

(** [EventFilter.__call__(self, event)] *)
Definition EventFilter___call__ (event : Event) : M (frame EventFilter) bool :=
  do update_self (ef_update (add_total 1)) then
  let* self := @get_self EventFilter in
  let* cond := (if passthrough self then ret true else call_passes event) in
  if cond : bool then
    do (if truth_of_hooks (hooks self)
        then for_each (default [] (hooks self)) FilterHook___call__
        else ret tt) then
    do update_self (ef_update (add_passing 1)) then
    ret true
  else ret false.

(** [len(collection)] *)
Definition len (collection : list Item) : Z := Z.of_nat (length collection).

(** [ObjectFilter.__call__(self, event, collection)] *)
Definition ObjectFilter___call__ (event : Event) (collection : list Item)
    : M (frame ObjectFilter) (list Item) :=
  let* self := @get_self ObjectFilter in
  do (if count_events self
      then update_self (of_update (add_total 1))
      else update_self (of_update (add_total (len collection)))) then
  let* collection :=
    (if negb (passthrough self) then call_filtered event collection
     else ret collection) in
  do (if (len collection >? 0)%Z
      then (if count_events self
            then update_self (of_update (add_passing 1))
            else update_self (of_update (add_passing (len collection))))
      else ret tt) then
  ret collection.

(** ** EventFilterList.__call__ *)

(** Evaluation mutates the stages in place, and a list holds references:
    the stage objects live in a store, indexed by their identity, and the
    list is the sequence of the identities of its elements, instances of
    [EventFilter] as [append] admits no other.  The same identity may occur
    at several positions. *)
Definition addr : Type := nat.

Record world : Type := mkWorld {
  objects : addr → EventFilter;
  calls : list (addr * call);
}.

(** A method call on the object at [a]. *)
Definition at_object {A} (a : addr) (m : M (frame EventFilter) A) : M world A :=
  λ w, let (fr, r) := m (mkFrame (objects w a) []) in
       (mkWorld (<[a := obj fr]> (objects w)) (calls w ++ map (pair a) (trace fr)), r).

(** [filter(event)] for the element [filter] of the list. *)
Definition call_stage (filter : addr) (event : Event) : M world bool :=
  do modify (λ w, mkWorld (objects w) (calls w ++ [(filter, CallStage event)])) then
  at_object filter (EventFilter___call__ event).

(** [EventFilterList.__call__(self, event)] *)
Fixpoint EventFilterList___call__ (self : list addr) (event : Event) : M world bool :=
  match self with
  | [] => ret true
  | filter :: rest =>
      let* passed := call_stage filter event in
      if negb passed then ret false
      else EventFilterList___call__ rest event
  end.

(** ** Runs *)

(** A stage called on one input after the other; its state goes from call
    to call, whether a call returns or raises. *)
Definition EventFilter_run (o : EventFilter) (events : list Event) : EventFilter :=
  foldl (λ o event, obj (EventFilter___call__ event (mkFrame o [])).1) o events.

Definition ObjectFilter_run (o : ObjectFilter) (inputs : list (Event * list Item))
    : ObjectFilter :=
  foldl (λ o input, obj (ObjectFilter___call__ input.1 input.2 (mkFrame o [])).1)
    o inputs.

(** The events submitted to an [EventFilterList], one after the other. *)
Definition EventFilterList_run (self : list addr) (w : world) (events : list Event)
    : world :=
  foldl (λ w event, (EventFilterList___call__ self event w).1) w events.

(** What a stage in the state [o] returns when it is called on [event]. *)
Definition returns (o : EventFilter) (event : Event) : result bool :=
  (EventFilter___call__ event (mkFrame o [])).2.

(** The stages called, in the order of their calls. *)
Definition stages_called (cs : list (addr * call)) : list addr :=
  omap (λ c, match c.2 with CallStage _ => Some c.1 | _ => None end) cs.

(** ** Filter.__getstate__, Filter.__setstate__, FilterList.basic *)

(** The dictionary [__getstate__] returns and [__setstate__] reads, with
    the four entries of the types [__getstate__] gives them; a dictionary
    handed to [__setstate__] may lack any of them (its other entries are
    not read). *)
Record state_dict : Type := mkState {
  st_name : option string;
  st_total : option Z;
  st_passing : option Z;
  st_details : option (gmap string Z);
}.

(** [state[key]] *)
Definition getitem {A} (entry : option A) : result A :=
  match entry with
  | Some v => Return v
  | None => Raise KeyError
  end.

Definition Filter___getstate__ (self : Filter) : state_dict :=
  mkState (Some (name self)) (Some (total self)) (Some (passing self))
    (Some (details self)).

(** The four assignments of [__setstate__], in the order of the source. *)
Definition Filter___setstate__ (state : state_dict) : M Filter unit :=
  let* v := lift (getitem (st_name state)) in
  do modify (set_name v) then
  let* v := lift (getitem (st_total state)) in
  do modify (set_total v) then
  let* v := lift (getitem (st_passing state)) in
  do modify (set_passing v) then
  let* v := lift (getitem (st_details state)) in
  modify (set_details v).

(** A value that is no filter defines no [__getstate__]: what the call
    [v.__getstate__()] does is up to the interpreter.  Since Python 3.11
    [object.__getstate__] answers, with [None] for a value without instance
    attributes; before, the attribute is missing and the call raises
    [AttributeError]. *)
Variable object___getstate__ : result (option state_dict).

(** [filter.__getstate__()] for an element of a list; [None] is Python's. *)
Definition pyval___getstate__ (filter : pyval) : result (option state_dict) :=
  match attributes filter with
  | Some f => Return (Some (Filter___getstate__ f))
  | None => object___getstate__
  end.

(** [[filter.__getstate__() for filter in self]] *)
Fixpoint FilterList_basic (self : list pyval) : result (list (option state_dict)) :=
  match self with
  | [] => Return []
  | filter :: rest =>
      match pyval___getstate__ filter with
      | Raise e => Raise e
      | Return state =>
          match FilterList_basic rest with
          | Return states => Return (state :: states)
          | Raise e => Raise e
          end
      end
  end.

(** ** FilterList.total, FilterList.passing *)

(** [self[0].total] when [len(self) > 0], else [0]. *)
Definition FilterList_total (self : list pyval) : result Z :=
  match self with
  | [] => Return 0%Z
  | first :: _ =>
      match attributes first with
      | Some f => Return (total f)
      | None => Raise AttributeError
      end
  end.

(** [self[-1].passing] when [len(self) > 0], else [0]. *)
Definition FilterList_passing (self : list pyval) : result Z :=
  match list.last self with
  | None => Return 0%Z
  | Some final =>
      match attributes final with
      | Some f => Return (passing f)
      | None => Raise AttributeError
      end
  end.

(** The elements of an [EventFilterList] in the store, as values. *)
Definition elements (self : list addr) (w : world) : list pyval :=
  (λ a, PyEventFilter (objects w a)) <$> self.

(** Whether the list lets an event through. *)
Definition accepts (self : list addr) (w : world) (event : Event) : bool :=
  match (EventFilterList___call__ self event w).2 with
  | Return true => true
  | _ => false
  end.

(** ** ObjectFilterList.__call__ *)

(** The store of the stages of an [ObjectFilterList]. *)
Record oworld : Type := mkOWorld {
  ofilters : addr → ObjectFilter;
  ocalls : list (addr * call);
}.

Definition at_ofilter {A} (a : addr) (m : M (frame ObjectFilter) A) : M oworld A :=
  λ w, let (fr, r) := m (mkFrame (ofilters w a) []) in
       (mkOWorld (<[a := obj fr]> (ofilters w)) (ocalls w ++ map (pair a) (trace fr)), r).

(** [filter(event, passing_objects)] for the element [filter] of the list. *)
Definition call_ostage (filter : addr) (event : Event) (passing_objects : list Item)
    : M oworld (list Item) :=
  do modify (λ w, mkOWorld (ofilters w) (ocalls w ++ [(filter, CallStage event)])) then
  at_ofilter filter (ObjectFilter___call__ event passing_objects).

(** [ObjectFilterList.__call__(self, event, collection)]; the third argument
    is [passing_objects], which starts as [collection].  An empty collection
    is false. *)
Fixpoint ObjectFilterList___call__ (self : list addr) (event : Event)
    (passing_objects : list Item) : M oworld (list Item) :=
  match self with
  | [] => ret passing_objects
  | filter :: rest =>
      let* passing_objects := call_ostage filter event passing_objects in
      match passing_objects with
      | [] => ret []
      | _ :: _ => ObjectFilterList___call__ rest event passing_objects
      end
  end.

(** The collections submitted to an [ObjectFilterList], one after the other. *)
Definition ObjectFilterList_run (self : list addr) (w : oworld)
    (inputs : list (Event * list Item)) : oworld :=
  foldl (λ w input, (ObjectFilterList___call__ self input.1 input.2 w).1) w inputs.

(** What a stage in the state [o] returns when it is called on a
    collection. *)
Definition oreturns (o : ObjectFilter) (event : Event) (collection : list Item)
    : result (list Item) :=
  (ObjectFilter___call__ event collection (mkFrame o [])).2.

(** What [passing_objects] holds when the loop of the list comes to position
    [k]: the collection the stage before has returned, each of the stages
    before [k] having returned one that is not empty. *)
Fixpoint handed (self : list addr) (w : oworld) (event : Event)
    (passing_objects : list Item) (k : nat) : option (list Item) :=
  match k with
  | 0 => Some passing_objects
  | S k =>
      match self with
      | [] => None
      | filter :: rest =>
          match oreturns (ofilters w filter) event passing_objects with
          | Return (x :: c) => handed rest w event (x :: c) k
          | _ => None
          end
      end
  end.

(** ** Closed forms

    What the methods above compute, written without the monad; the lemmas
    [EventFilter___call___eq] and [ObjectFilter___call___eq] below prove
    that they are what the methods do. *)

(** One item of the list built at line 59. *)
Definition summed_item (right : gmap string Z) (item : string * Z) : string * Z :=
  (item.1, (item.2 + default 0 (right !! item.1))%Z).

(** What [self.passthrough or self.passes(event)] evaluates to. *)
Definition let_through (o : EventFilter) (event : Event) : result bool :=
  if passthrough o then Return true else passes o event.

(** The loop over the hooks: how it ends, and the hooks it has called, the
    first that raises being the last. *)
Fixpoint hooks_outcome (hs : list Hook) : result unit :=
  match hs with
  | [] => Return tt
  | h :: rest =>
      match target h with
      | Return _ => hooks_outcome rest
      | Raise e => Raise e
      end
  end.

Fixpoint hooks_called (hs : list Hook) : list Hook :=
  match hs with
  | [] => []
  | h :: rest =>
      h :: match target h with
           | Return _ => hooks_called rest
           | Raise _ => []
           end
  end.

(** How [EventFilter.__call__] ends. *)
Definition verdict (o : EventFilter) (event : Event) : result bool :=
  match let_through o event with
  | Return true =>
      match hooks_outcome (default [] (hooks o)) with
      | Return _ => Return true
      | Raise e => Raise e
      end
  | r => r
  end.

(** The calls made while an event is evaluated. *)
Definition verdict_calls (o : EventFilter) (event : Event) : list call :=
  (if passthrough o then [] else [CallPasses event]) ++
  match let_through o event with
  | Return true => CallHook <$> hooks_called (default [] (hooks o))
  | _ => []
  end.

(** The stage after an event is evaluated. *)
Definition counted (o : EventFilter) (event : Event) : EventFilter :=
  match verdict o event with
  | Return true => ef_update (add_passing 1) (ef_update (add_total 1) o)
  | _ => ef_update (add_total 1) o
  end.

(** What [collection] is after line 107 of [ObjectFilter.__call__]. *)
Definition narrowed (o : ObjectFilter) (event : Event) (collection : list Item)
    : result (list Item) :=
  if passthrough o then Return collection else filtered o event collection.

(** Whether a call returned [True]. *)
Definition is_True (r : result bool) : bool :=
  match r with
  | Return true => true
  | _ => false
  end.

(** What one call of an [ObjectFilter] adds to [total] and to [passing]. *)
Definition seen (o : ObjectFilter) (input : Event * list Item) : Z :=
  if count_events o then 1%Z else len input.2.
Definition kept (o : ObjectFilter) (input : Event * list Item) : Z :=
  match narrowed o input.1 input.2 with
  | Return (x :: c) => if count_events o then 1%Z else len (x :: c)
  | _ => 0%Z
  end.

(** An [ObjectFilter] after one call. *)
Definition ocounted (o : ObjectFilter) (input : Event * list Item) : ObjectFilter :=
  mkObjectFilter
    (mkFilter (total o + seen o input) (passing o + kept o input)
       (details o) (name o) (hooks o) (passthrough o))
    (count_events o) (filtered o).

(** [filtered] never returns more than it is given. *)
Definition narrowing (o : ObjectFilter) : Prop :=
  ∀ event c c', filtered o event c = Return c' → length c' ≤ length c.

(** * Properties *)

(** ** Filter.add *)

Lemma summed_items_Return (right : gmap string Z) (items : list (string * Z)) :
  Forall (λ item, is_Some (right !! item.1)) items →
  summed_items right items = Return (summed_item right <$> items).
Proof.
  induction 1 as [|[k x] items [y Hy] _ IH]; simpl in *; [reflexivity|].
  rewrite Hy, IH. unfold summed_item. simpl. rewrite Hy. reflexivity.
Qed.

Lemma summed_items_Raise (right : gmap string Z) (items : list (string * Z)) :
  Exists (λ item, right !! item.1 = None) items →
  summed_items right items = Raise KeyError.
Proof.
  induction items as [|[k x] items IH]; intros Hex.
  - inversion Hex.
  - simpl. destruct (right !! k) as [y|] eqn:Hk; [|reflexivity].
    rewrite IH; [reflexivity|].
    inversion Hex as [? ? H0|]; subst; [|assumption]. simpl in H0. congruence.
Qed.

Lemma summed_details_Raise (left right : gmap string Z) (k : string) :
  is_Some (left !! k) → right !! k = None →
  summed_details left right = Raise KeyError.
Proof.
  intros [x Hx] Hk. unfold summed_details.
  rewrite summed_items_Raise; [reflexivity|].
  apply list.Exists_exists. exists (k, x). split; [|assumption].
  apply elem_of_map_to_list. assumption.
Qed.

Lemma summed_details_Return (left right : gmap string Z) :
  dom left ⊆ dom right →
  summed_details left right = Return (map_zip_with Z.add left right).
Proof.
  intros Hsub. unfold summed_details.
  rewrite summed_items_Return.
  - f_equal. apply map_eq. intros k.
    rewrite map_lookup_zip_with.
    destruct (left !! k) as [x|] eqn:Hx; simpl.
    + assert (is_Some (right !! k)) as [y Hy].
      { apply elem_of_dom, Hsub, elem_of_dom. eauto. }
      rewrite Hy. simpl. apply elem_of_list_to_map.
      * rewrite <- list_fmap_compose.
        rewrite (list_fmap_ext (fst ∘ summed_item right) fst);
          [apply NoDup_fst_map_to_list | reflexivity].
      * apply list_elem_of_fmap. exists (k, x). split.
        -- unfold summed_item. simpl. rewrite Hy. reflexivity.
        -- apply elem_of_map_to_list. assumption.
    + apply not_elem_of_list_to_map. rewrite <- list_fmap_compose.
      intros Hin. apply list_elem_of_fmap in Hin as [[k' x'] [Hk' Hin]].
      simpl in Hk'. subst k'. apply elem_of_map_to_list in Hin. congruence.
  - apply list.Forall_forall. intros [k x] Hin. simpl.
    apply elem_of_map_to_list in Hin.
    apply elem_of_dom, Hsub, elem_of_dom. eauto.
Qed.

Lemma Filter_add_run_Return (left right : Filter) :
  dom (details left) ⊆ dom (details right) →
  Filter_add_run left right =
  (mkFilter (total left + total right) (passing left + passing right)
     (map_zip_with Z.add (details left) (details right)) (name left) None false,
   Return PyNone).
Proof.
  intros Hsub. unfold Filter_add_run, Filter_add_body, bind, lift, modify, ret.
  simpl. rewrite (summed_details_Return _ _ Hsub). reflexivity.
Qed.

Lemma Filter_add_run_Raise (left right : Filter) (k : string) :
  is_Some (details left !! k) → details right !! k = None →
  (Filter_add_run left right).2 = Raise KeyError.
Proof.
  intros Hl Hr. unfold Filter_add_run, Filter_add_body, bind, lift, modify, ret.
  simpl. rewrite (summed_details_Raise _ _ k Hl Hr). reflexivity.
Qed.

(** Whatever [Filter.add] returns is [None]. *)
Lemma Filter_add_Return_None (left right : Filter) (v : pyval) :
  Filter_add left right = Return v → v = PyNone.
Proof.
  unfold Filter_add, Filter_add_run, Filter_add_body, bind, lift, modify, ret.
  destruct (negb _); [discriminate|]. simpl.
  destruct (summed_details _ _); simpl; congruence.
Qed.

Lemma Filter___add___Return_None (self other v : pyval) :
  Filter___add__ self other = Return v → v = PyNone.
Proof.
  unfold Filter___add__.
  destruct (attributes self); [|discriminate].
  destruct (attributes other); [|discriminate].
  apply Filter_add_Return_None.
Qed.

(** C1 (as amended).  [Filter.add(left, right)] raises [ValueError] when the
    names differ.  When they are equal it raises [KeyError] as soon as a key
    of [left.details] is missing from [right.details]; and when every key of
    [left.details] is a key of [right.details] it does not raise, and the
    filter it has built is named [left.name], has [total = left.total +
    right.total], [passing = left.passing + right.passing], and as [details]
    the sums over the keys of [left.details] (a key of [right.details] alone
    is dropped, it is no error). *)
Theorem Filter_add_builds_sum (left right : Filter) :
  (name left ≠ name right → Filter_add left right = Raise ValueError) ∧
  (name left = name right →
     (∀ k, is_Some (details left !! k) → details right !! k = None →
           Filter_add left right = Raise KeyError) ∧
     (dom (details left) ⊆ dom (details right) →
        ¬ raised (Filter_add left right) ∧
        Filter_add_newfilter left right =
          mkFilter (total left + total right) (passing left + passing right)
            (map_zip_with Z.add (details left) (details right))
            (name left) None false)).
Proof.
  unfold Filter_add, Filter_add_newfilter. split.
  - intros Hne. apply String.eqb_neq in Hne. rewrite Hne. reflexivity.
  - intros Heq. apply String.eqb_eq in Heq. rewrite Heq. simpl. split.
    + intros k. apply Filter_add_run_Raise.
    + intros Hsub. rewrite (Filter_add_run_Return _ _ Hsub). simpl. auto.
Qed.

(** The filters [Filter.add] builds for stages of the same name and the same
    keys of [details] do not depend on the order of the operands. *)
Lemma Filter_add_newfilter_comm (a b : Filter) :
  name a = name b → dom (details a) = dom (details b) →
  Filter_add_newfilter a b = Filter_add_newfilter b a.
Proof.
  intros Hname Hdom. unfold Filter_add_newfilter.
  rewrite !Filter_add_run_Return by (rewrite Hdom; reflexivity). simpl.
  rewrite Hname. f_equal; try lia.
  apply map_eq. intros k. rewrite !map_lookup_zip_with.
  destruct (details a !! k), (details b !! k); simpl; try reflexivity.
  f_equal. lia.
Qed.

(** ** FilterList.merge *)

Lemma zip_take_min {A B} (l1 : list A) (l2 : list B) :
  zip (take (length l1 `min` length l2) l1) (take (length l1 `min` length l2) l2)
  = zip l1 l2.
Proof.
  revert l2. induction l1 as [|x l1 IH]; intros [|y l2]; simpl; try reflexivity.
  f_equal. apply IH.
Qed.

(** One turn of the loop of [merge]. *)
Lemma merge_loop_cons (f1 f2 : pyval) (list1 list2 filterlist : list pyval) :
  merge_loop (f1 :: list1) (f2 :: list2) filterlist =
  match Filter___add__ f1 f2 with
  | Return sum =>
      match FilterList_append sum filterlist with
      | (filterlist', Return _) => merge_loop list1 list2 filterlist'
      | (filterlist', Raise e) => (filterlist', Raise e)
      end
  | Raise e => (filterlist, Raise e)
  end.
Proof.
  unfold merge_loop. simpl. unfold bind, lift. simpl.
  destruct (Filter___add__ f1 f2) as [sum|e]; [|reflexivity].
  destruct (FilterList_append sum filterlist) as [fl [[]|e]]; reflexivity.
Qed.

(** A loop that ends without raising has appended, in list order, what
    [f1 + f2] returns for each pair. *)
Lemma merge_loop_Return (list1 list2 : list pyval) :
  ∀ filterlist filterlist' : list pyval,
    merge_loop list1 list2 filterlist = (filterlist', Return tt) →
    ∃ sums, filterlist' = filterlist ++ sums
      ∧ length sums = length list1 `min` length list2
      ∧ ∀ i f1 f2, list1 !! i = Some f1 → list2 !! i = Some f2 →
          ∃ v, Filter___add__ f1 f2 = Return v ∧ sums !! i = Some v.
Proof.
  revert list2. induction list1 as [|g1 list1 IH]; intros [|g2 list2] fl fl' Hloop;
    try (inversion Hloop; subst; exists []; rewrite app_nil_r;
         repeat split; intros; discriminate).
  rewrite merge_loop_cons in Hloop.
  destruct (Filter___add__ g1 g2) as [sum|e] eqn:Hadd; [|discriminate].
  unfold FilterList_append in Hloop.
  destruct (negb (isinstance_Filter sum)); [discriminate|].
  unfold list_append, modify in Hloop.
  destruct (IH list2 _ _ Hloop) as (sums & -> & Hlen & Hsums).
  exists (sum :: sums). rewrite <- app_assoc. split; [reflexivity|].
  split; [simpl; lia|].
  intros [|i] f1 f2 H1 H2; simpl in H1, H2.
  - inversion H1; inversion H2; subst. exists sum. split; [exact Hadd|reflexivity].
  - exact (Hsums i f1 f2 H1 H2).
Qed.

(** The loop stops at the first pair that fails to combine. *)
Lemma merge_loop_Raise (i : nat) :
  ∀ (list1 list2 filterlist filterlist' : list pyval) (f1 f2 : pyval) (e : exn),
    merge_loop (take i list1) (take i list2) filterlist = (filterlist', Return tt) →
    list1 !! i = Some f1 → list2 !! i = Some f2 →
    Filter___add__ f1 f2 = Raise e →
    merge_loop list1 list2 filterlist = (filterlist', Raise e).
Proof.
  induction i as [|i IH];
    intros [|g1 list1] [|g2 list2] fl fl' f1 f2 e Hloop H1 H2 Hadd;
    try discriminate; simpl in H1, H2.
  - inversion H1; inversion H2; subst. inversion Hloop; subst.
    rewrite merge_loop_cons, Hadd. reflexivity.
  - simpl in Hloop. rewrite merge_loop_cons in *.
    destruct (Filter___add__ g1 g2) as [sum|e']; [|discriminate].
    destruct (FilterList_append sum fl) as [fl1 [[]|e']]; [|discriminate].
    exact (IH _ _ _ _ _ _ _ Hloop H1 H2 Hadd).
Qed.

(** A first pair of stages is never merged: either [f1 + f2] raises, or it
    evaluates to [None], which [FilterList.append] refuses. *)
Lemma FilterList_merge_cons (f1 f2 : pyval) (list1 list2 : list pyval) :
  FilterList_merge (f1 :: list1) (f2 :: list2) =
  match Filter___add__ f1 f2 with
  | Return _ => Raise TypeError
  | Raise e => Raise e
  end.
Proof.
  unfold FilterList_merge. rewrite merge_loop_cons.
  destruct (Filter___add__ f1 f2) as [sum|e] eqn:Hadd; [|reflexivity].
  apply Filter___add___Return_None in Hadd. subst sum. reflexivity.
Qed.

Lemma FilterList_merge_Return (list1 list2 merged : list pyval) :
  FilterList_merge list1 list2 = Return merged →
  merged = [] ∧ (list1 = [] ∨ list2 = []).
Proof.
  destruct list1 as [|f1 list1]; [intros H; inversion H; auto|].
  destruct list2 as [|f2 list2]; [intros H; inversion H; auto|].
  rewrite FilterList_merge_cons. destruct (Filter___add__ f1 f2); discriminate.
Qed.

(** C2 (as amended).  [FilterList.merge] checks no length: it walks the two
    lists pairwise up to the end of the shorter one, so that it behaves on
    [list1] and [list2] as on their first [min (len list1) (len list2)]
    stages, and returns an empty list when one of them is empty.  The pairs
    are combined in list order with [f1 + f2]: when a pair fails to combine,
    the loop having passed the pairs before it, the call fails with that
    error and returns no list; and a list that is returned holds at each
    position the value of [list1[i] + list2[i]]. *)
Theorem FilterList_merge_pairs (list1 list2 : list pyval) :
  FilterList_merge list1 list2 =
    FilterList_merge (take (length list1 `min` length list2) list1)
                     (take (length list1 `min` length list2) list2)
  ∧ (length list1 `min` length list2 = 0 → FilterList_merge list1 list2 = Return [])
  ∧ (∀ i f1 f2 e,
       ¬ raised (merge_loop (take i list1) (take i list2) []).2 →
       list1 !! i = Some f1 → list2 !! i = Some f2 →
       Filter___add__ f1 f2 = Raise e → FilterList_merge list1 list2 = Raise e)
  ∧ (∀ merged, FilterList_merge list1 list2 = Return merged →
       length merged = length list1 `min` length list2 ∧
       ∀ i f1 f2, list1 !! i = Some f1 → list2 !! i = Some f2 →
         ∃ v, Filter___add__ f1 f2 = Return v ∧ merged !! i = Some v).
Proof.
  split; [|split; [|split]].
  - unfold FilterList_merge, merge_loop. rewrite zip_take_min. reflexivity.
  - intros Hmin. destruct list1, list2; simpl in Hmin; try reflexivity; lia.
  - intros i f1 f2 e Hbefore H1 H2 Hadd. unfold FilterList_merge.
    destruct (merge_loop (take i list1) (take i list2) []) as [fl [[]|e']] eqn:Hloop;
      [|exfalso; apply Hbefore; exact I].
    rewrite (merge_loop_Raise i _ _ _ _ _ _ _ Hloop H1 H2 Hadd). reflexivity.
  - intros merged Hmerged. unfold FilterList_merge in Hmerged.
    destruct (merge_loop list1 list2 []) as [fl [[]|e]] eqn:Hloop; [|discriminate].
    inversion Hmerged; subst fl.
    destruct (merge_loop_Return _ _ _ _ Hloop) as (sums & -> & Hlen & Hsums).
    split; [exact Hlen|exact Hsums].
Qed.

(** ** Membership of the constrained lists *)

(** [__setitem__] of the three list classes raises [TypeError] on every
    argument list and leaves the list as it is. *)
Lemma FilterList___setitem___TypeError (args self : list pyval) :
  FilterList___setitem__ args self = (self, Raise TypeError).
Proof.
  destruct args as [|filter [|? ?]]; try reflexivity.
  destruct filter; reflexivity.
Qed.

Lemma EventFilterList___setitem___TypeError (args self : list pyval) :
  EventFilterList___setitem__ args self = (self, Raise TypeError).
Proof.
  destruct args as [|filter [|? ?]]; try reflexivity.
  unfold EventFilterList___setitem__.
  destruct (negb (isinstance_EventFilter filter)); [reflexivity|].
  apply FilterList___setitem___TypeError.
Qed.

Lemma ObjectFilterList___setitem___TypeError (args self : list pyval) :
  ObjectFilterList___setitem__ args self = (self, Raise TypeError).
Proof.
  destruct args as [|filter [|? ?]]; try reflexivity.
  unfold ObjectFilterList___setitem__.
  destruct (negb (isinstance_ObjectFilter filter)); [reflexivity|].
  apply FilterList___setitem___TypeError.
Qed.



(** An instance of the right kind is appended at the end. *)
Lemma EventFilterList_append_EventFilter (self : list pyval) (f : EventFilter) :
  EventFilterList_append (PyEventFilter f) self = (self ++ [PyEventFilter f], Return tt).
Proof. reflexivity. Qed.

Lemma ObjectFilterList_append_ObjectFilter (self : list pyval) (f : ObjectFilter) :
  ObjectFilterList_append (PyObjectFilter f) self = (self ++ [PyObjectFilter f], Return tt).
Proof. reflexivity. Qed.

(** ** Evaluation of one stage *)

Lemma for_each_hooks {T} (hs : list Hook) (fr : frame T) :
  for_each hs FilterHook___call__ fr =
  (mkFrame (obj fr) (trace fr ++ (CallHook <$> hooks_called hs)), hooks_outcome hs).
Proof.
  revert fr. induction hs as [|h hs IH]; intros [o t]; simpl.
  - rewrite app_nil_r. reflexivity.
  - unfold bind, FilterHook___call__, emit, modify, lift. simpl.
    destruct (target h) as [[]|e]; [|reflexivity].
    rewrite IH. simpl. rewrite <- app_assoc. reflexivity.
Qed.

Lemma hooks_all_return (hs : list Hook) :
  Forall (λ h, target h = Return tt) hs →
  hooks_outcome hs = Return tt ∧ hooks_called hs = hs.
Proof.
  induction 1 as [|h hs Hh _ [IHo IHc]]; [split; reflexivity|].
  simpl. rewrite Hh, IHo, IHc. split; reflexivity.
Qed.

Lemma hooks_first_raise (hs1 hs2 : list Hook) (h : Hook) (e : exn) :
  Forall (λ h, target h = Return tt) hs1 → target h = Raise e →
  hooks_outcome (hs1 ++ h :: hs2) = Raise e
  ∧ hooks_called (hs1 ++ h :: hs2) = hs1 ++ [h].
Proof.
  intros Hall Hh. induction Hall as [|h1 hs1 Hh1 _ [IHo IHc]]; simpl.
  - rewrite Hh. split; reflexivity.
  - rewrite Hh1, IHo, IHc. split; reflexivity.
Qed.

Lemma EventFilter___call___eq (event : Event) (o : EventFilter) (t : list call) :
  EventFilter___call__ event (mkFrame o t) =
  (mkFrame (counted o event) (t ++ verdict_calls o event), verdict o event).
Proof.
  unfold EventFilter___call__, counted, verdict_calls, verdict, let_through.
  unfold bind, update_self, get_self, call_passes, emit, modify, lift, ret. simpl.
  destruct (passthrough o) eqn:Hpt; simpl.
  - destruct (truth_of_hooks (hooks o)) eqn:Hh.
    + rewrite for_each_hooks. simpl.
      destruct (hooks_outcome (default [] (hooks o))) as [[]|e]; reflexivity.
    + destruct (hooks o) as [[|]|]; try discriminate; simpl;
        rewrite app_nil_r; reflexivity.
  - destruct (passes o event) as [[]|e]; simpl; try reflexivity.
    destruct (truth_of_hooks (hooks o)) eqn:Hh.
    + rewrite for_each_hooks. simpl. rewrite <- app_assoc.
      destruct (hooks_outcome (default [] (hooks o))) as [[]|e]; reflexivity.
    + destruct (hooks o) as [[|]|]; try discriminate; reflexivity.
Qed.

(** Counting changes neither [passthrough] nor [passes]. *)
Lemma verdict_counted (o : EventFilter) (event event' : Event) :
  verdict (counted o event) event' = verdict o event'.
Proof. unfold counted. destruct (verdict o event) as [[]|e]; reflexivity. Qed.

Lemma total_counted (o : EventFilter) (event : Event) :
  total (counted o event) = (total o + 1)%Z.
Proof. unfold counted. destruct (verdict o event) as [[]|e]; reflexivity. Qed.

Lemma passing_counted (o : EventFilter) (event : Event) :
  passing (counted o event) =
  (passing o + match verdict o event with Return true => 1 | _ => 0 end)%Z.
Proof. unfold counted. destruct (verdict o event) as [[]|e]; simpl; lia. Qed.

(** C8 (as amended).  An [EventFilter] with [passthrough] set never calls
    its [passes] and counts the event in [total].  It returns [True] and counts the event
    in [passing] when every hook returns, the hooks being called in order; a
    hook that raises is the last one called, its exception leaves the call
    and [passing] is unchanged. *)
Theorem EventFilter_passthrough_skips_passes
    (o : EventFilter) (event : Event) (t : list call) :
  passthrough o = true →
  ∃ o' cs r,
    EventFilter___call__ event (mkFrame o t) = (mkFrame o' (t ++ cs), r)
    ∧ total o' = (total o + 1)%Z
    ∧ (∀ ev, CallPasses ev ∉ cs)
    ∧ (Forall (λ h, target h = Return tt) (default [] (hooks o)) →
       r = Return true
       ∧ passing o' = (passing o + 1)%Z
       ∧ cs = (CallHook <$> default [] (hooks o)))
    ∧ (∀ hs1 h hs2 e,
         default [] (hooks o) = hs1 ++ h :: hs2 →
         Forall (λ h, target h = Return tt) hs1 →
         target h = Raise e →
         r = Raise e
         ∧ passing o' = passing o
         ∧ cs = (CallHook <$> (hs1 ++ [h]))).
Proof.
  intros Hpt. rewrite EventFilter___call___eq.
  eexists _, _, _. split; [reflexivity|].
  split; [apply total_counted|].
  rewrite passing_counted.
  unfold verdict_calls, verdict, let_through. rewrite Hpt. simpl.
  split; [|split].
  - intros ev Hin. apply list_elem_of_fmap in Hin as [h [Hh _]]. discriminate.
  - intros Hall. destruct (hooks_all_return _ Hall) as [-> ->]. auto.
  - intros hs1 h hs2 e -> Hall Hh.
    destruct (hooks_first_raise hs1 hs2 h e Hall Hh) as [-> ->].
    repeat split. lia.
Qed.

Lemma ObjectFilter___call___eq (event : Event) (collection : list Item)
    (o : ObjectFilter) (t : list call) :
  ObjectFilter___call__ event collection (mkFrame o t) =
  let o1 := of_update (add_total (if count_events o then 1 else len collection)) o in
  let t1 := t ++ (if passthrough o then [] else [CallFiltered event collection]) in
  match narrowed o event collection with
  | Raise e => (mkFrame o1 t1, Raise e)
  | Return c =>
      (mkFrame (if (len c >? 0)%Z
                then of_update (add_passing (if count_events o then 1 else len c)) o1
                else o1) t1,
       Return c)
  end.
Proof.
  unfold ObjectFilter___call__, narrowed.
  unfold bind, update_self, get_self, call_filtered, emit, modify, lift, ret. simpl.
  destruct (count_events o), (passthrough o); simpl;
    rewrite ?app_nil_r;
    try (destruct (filtered o event collection) as [c|e]; simpl; [|reflexivity]);
    match goal with |- context [(len ?c >? 0)%Z] => destruct (len c >? 0)%Z end;
    reflexivity.
Qed.

(** C7.  One call of an [ObjectFilter].  With [passthrough] set the
    collection is returned as it is and [filtered] is not called (no call is
    recorded); otherwise the collection returned is the one [filtered]
    returns.  With [count_events] set [total] grows by one, and [passing] by
    one exactly when the collection returned is not empty; otherwise [total]
    grows by the size of the collection given and [passing] by the size of
    the collection returned. *)
Theorem ObjectFilter_call_counts
    (o : ObjectFilter) (event : Event) (collection : list Item) (t : list call) :
  (passthrough o = true →
     ∃ o', ObjectFilter___call__ event collection (mkFrame o t)
           = (mkFrame o' t, Return collection)
       ∧ total o' = (total o + if count_events o then 1 else len collection)%Z
       ∧ passing o' = (passing o + if count_events o
                                   then match collection with [] => 0 | _ => 1 end
                                   else len collection)%Z)
  ∧ (∀ output, passthrough o = false →
       filtered o event collection = Return output →
     ∃ o', ObjectFilter___call__ event collection (mkFrame o t)
           = (mkFrame o' (t ++ [CallFiltered event collection]), Return output)
       ∧ total o' = (total o + if count_events o then 1 else len collection)%Z
       ∧ passing o' = (passing o + if count_events o
                                   then match output with [] => 0 | _ => 1 end
                                   else len output)%Z).
Proof.
  split.
  - intros Hpt. rewrite ObjectFilter___call___eq. unfold narrowed.
    rewrite Hpt, app_nil_r. cbv zeta. eexists. split; [reflexivity|].
    unfold len. destruct collection as [|x c], (count_events o); simpl; split; lia.
  - intros output Hpt Hf. rewrite ObjectFilter___call___eq. unfold narrowed.
    rewrite Hpt, Hf. cbv zeta. eexists. split; [reflexivity|].
    unfold len. destruct output as [|x c], (count_events o); simpl; split; lia.
Qed.

(** C10.  When [passes] (resp. [filtered]) raises on the input, the call
    has counted the input all the same: [total] has grown by one (resp. by
    one with [count_events] set, and by the size of the collection given
    otherwise) and [details] is as before.  Unless [passthrough] is set,
    the method is called and its exception leaves the call, with [passing]
    as before.  The methods of the base classes raise
    [NotImplementedError]. *)
Theorem evaluation_counts_before_raising :
  (∀ (o : EventFilter) (event : Event) (t : list call) (e : exn),
     passes o event = Raise e →
     ∃ o' t' r, EventFilter___call__ event (mkFrame o t) = (mkFrame o' t', r)
       ∧ total o' = (total o + 1)%Z
       ∧ details o' = details o
       ∧ (passthrough o = false →
            r = Raise e ∧ passing o' = passing o ∧ t' = t ++ [CallPasses event]))
  ∧ (∀ (o : ObjectFilter) (event : Event) (collection : list Item)
       (t : list call) (e : exn),
     filtered o event collection = Raise e →
     ∃ o' t' r, ObjectFilter___call__ event collection (mkFrame o t)
                = (mkFrame o' t', r)
       ∧ total o' = (total o + if count_events o then 1 else len collection)%Z
       ∧ details o' = details o
       ∧ (passthrough o = false →
            r = Raise e ∧ passing o' = passing o
            ∧ t' = t ++ [CallFiltered event collection]))
  ∧ (∀ event, EventFilter_passes event = Raise NotImplementedError)
  ∧ (∀ event collection,
       ObjectFilter_filtered event collection = Raise NotImplementedError).
Proof.
  split; [|split; [|split; reflexivity]].
  - intros o event t e Hp. rewrite EventFilter___call___eq.
    eexists _, _, _. split; [reflexivity|].
    split; [apply total_counted|].
    split; [unfold counted; destruct (verdict o event) as [[]|]; reflexivity|].
    intros Hpt. unfold counted, verdict_calls, verdict, let_through.
    rewrite Hpt, Hp. repeat split.
  - intros o event collection t e Hf. rewrite ObjectFilter___call___eq.
    cbv zeta. unfold narrowed. destruct (passthrough o).
    + eexists _, _, _. split; [reflexivity|].
      destruct (len collection >? 0)%Z; repeat split; discriminate.
    + rewrite Hf. eexists _, _, _. split; [reflexivity|]. repeat split.
Qed.

(** ** The invariant of the counters *)

Lemma EventFilter_call_keeps_invariant (o : EventFilter) (event : Event) :
  (0 ≤ passing o ≤ total o)%Z →
  (0 ≤ passing (counted o event) ≤ total (counted o event))%Z.
Proof.
  unfold counted. destruct (verdict o event) as [[]|e]; simpl; lia.
Qed.

Lemma EventFilter_run_keeps_invariant (events : list Event) (o : EventFilter) :
  (0 ≤ passing o ≤ total o)%Z →
  (0 ≤ passing (EventFilter_run o events) ≤ total (EventFilter_run o events))%Z.
Proof.
  revert o. induction events as [|event events IH]; intros o Ho; [exact Ho|].
  unfold EventFilter_run. simpl. apply IH.
  rewrite EventFilter___call___eq. simpl.
  apply EventFilter_call_keeps_invariant, Ho.
Qed.

Lemma ObjectFilter_call_keeps_invariant
    (o : ObjectFilter) (event : Event) (collection : list Item) :
  narrowing o →
  (0 ≤ passing o ≤ total o)%Z →
  let o' := obj (ObjectFilter___call__ event collection (mkFrame o [])).1 in
  filtered o' = filtered o ∧ (0 ≤ passing o' ≤ total o')%Z.
Proof.
  intros Hn Ho. rewrite ObjectFilter___call___eq. cbv zeta. unfold narrowed.
  destruct (passthrough o) eqn:Hpt.
  - unfold len. destruct (Z.of_nat (length collection) >? 0)%Z eqn:Hlen;
      destruct (count_events o); simpl; split; try reflexivity; lia.
  - destruct (filtered o event collection) as [c|e] eqn:Hf.
    + apply Hn in Hf. unfold len.
      destruct (Z.of_nat (length c) >? 0)%Z eqn:Hlen;
        destruct (count_events o); simpl; split; try reflexivity; lia.
    + destruct (count_events o); simpl; split; try reflexivity; unfold len; lia.
Qed.

Lemma ObjectFilter_run_keeps_invariant
    (inputs : list (Event * list Item)) (o : ObjectFilter) :
  narrowing o →
  (0 ≤ passing o ≤ total o)%Z →
  (0 ≤ passing (ObjectFilter_run o inputs) ≤ total (ObjectFilter_run o inputs))%Z.
Proof.
  revert o. induction inputs as [|[event c] inputs IH]; intros o Hn Ho; [exact Ho|].
  unfold ObjectFilter_run. simpl.
  destruct (ObjectFilter_call_keeps_invariant o event c Hn Ho) as [Hf Ho'].
  apply IH; [|exact Ho'].
  unfold narrowing. rewrite Hf. exact Hn.
Qed.

(** C5.  From counters at zero, a stage has [0 <= passing <= total] after
    every call: an [EventFilter] whatever its [passes] is, an
    [ObjectFilter] whose [filtered] never returns more objects than it is
    given. *)
Theorem passing_le_total_after_calls :
  (∀ (o : EventFilter) (events : list Event),
     total o = 0%Z → passing o = 0%Z →
     (0 ≤ passing (EventFilter_run o events) ≤ total (EventFilter_run o events))%Z)
  ∧ (∀ (o : ObjectFilter) (inputs : list (Event * list Item)),
     total o = 0%Z → passing o = 0%Z →
     (∀ event c c', filtered o event c = Return c' → length c' ≤ length c) →
     (0 ≤ passing (ObjectFilter_run o inputs) ≤ total (ObjectFilter_run o inputs))%Z).
Proof.
  split.
  - intros o events Ht Hp. apply EventFilter_run_keeps_invariant. lia.
  - intros o inputs Ht Hp Hn. apply ObjectFilter_run_keeps_invariant; [exact Hn|lia].
Qed.

(** ** EventFilterList.__call__ *)

Lemma returns_verdict (o : EventFilter) (event : Event) :
  returns o event = verdict o event.
Proof. unfold returns. rewrite EventFilter___call___eq. reflexivity. Qed.

Lemma stages_called_verdict_calls (a : addr) (o : EventFilter) (event : Event) :
  stages_called (pair a <$> verdict_calls o event) = [].
Proof.
  unfold stages_called, verdict_calls. rewrite fmap_app, omap_app.
  assert (∀ hs : list Hook,
    omap (λ c : addr * call, match c.2 with CallStage _ => Some c.1 | _ => None end)
      (pair a <$> (CallHook <$> hs)) = []) as Hhooks.
  { induction hs as [|h hs IH]; [reflexivity|exact IH]. }
  destruct (let_through o event) as [[]|e], (passthrough o); simpl;
    try reflexivity; apply Hhooks.
Qed.

(** The call of one stage by the list. *)
Lemma call_stage_eq (a : addr) (event : Event) (w : world) :
  call_stage a event w =
  (mkWorld (<[a := counted (objects w a) event]> (objects w))
     (calls w ++ (a, CallStage event) :: (pair a <$> verdict_calls (objects w a) event)),
   verdict (objects w a) event).
Proof.
  unfold call_stage, at_object, bind, modify. simpl.
  rewrite EventFilter___call___eq. simpl. rewrite <- app_assoc. reflexivity.
Qed.

Lemma EventFilterList___call___cons (a : addr) (rest : list addr)
    (event : Event) (w : world) :
  EventFilterList___call__ (a :: rest) event w =
  match call_stage a event w with
  | (w1, Return true) => EventFilterList___call__ rest event w1
  | (w1, Return false) => (w1, Return false)
  | (w1, Raise e) => (w1, Raise e)
  end.
Proof.
  simpl. unfold bind. destruct (call_stage a event w) as [w1 [[]|e]]; reflexivity.
Qed.

Lemma verdict_after_stage (a b : addr) (event event' : Event) (w : world) :
  verdict ((<[a := counted (objects w a) event]> (objects w)) b) event'
  = verdict (objects w b) event'.
Proof.
  destruct (decide (a = b)) as [->|Hne].
  - rewrite fn_lookup_insert. apply verdict_counted.
  - rewrite fn_lookup_insert_ne by exact Hne. reflexivity.
Qed.

(** The list stops at the first stage that returns [False]. *)
Lemma EventFilterList_stops (self : list addr) (event : Event) :
  ∀ (w : world) (k : nat) (a : addr),
    self !! k = Some a →
    verdict (objects w a) event = Return false →
    (∀ j b, j < k → self !! j = Some b → verdict (objects w b) event = Return true) →
    ∃ w', EventFilterList___call__ self event w = (w', Return false)
      ∧ stages_called (calls w') = stages_called (calls w) ++ take (S k) self
      ∧ (∀ b, b ∉ take (S k) self → objects w' b = objects w b)
      ∧ (NoDup self → ∀ j b, k < j → self !! j = Some b → objects w' b = objects w b).
Proof.
  induction self as [|a0 rest IH]; intros w k a Hk Hfalse Htrue; [discriminate|].
  rewrite EventFilterList___call___cons, call_stage_eq.
  destruct k as [|k]; simpl in Hk.
  - inversion Hk; subst a0. rewrite Hfalse. eexists. split; [reflexivity|].
    simpl. unfold stages_called at 1. rewrite omap_app. simpl.
    fold (stages_called (pair a <$> verdict_calls (objects w a) event)).
    rewrite stages_called_verdict_calls. repeat split.
    + intros b Hb. apply fn_lookup_insert_ne. intros ->. apply Hb. left.
    + intros Hnd j b Hj Hb. apply fn_lookup_insert_ne. intros ->.
      destruct j as [|j]; [lia|]. simpl in Hb.
      apply list.NoDup_cons in Hnd as [Hnotin _]. apply Hnotin.
      apply list_elem_of_lookup. eauto.
  - rewrite (Htrue 0 a0 ltac:(lia) eq_refl).
    set (w1 := mkWorld _ _).
    destruct (IH w1 k a Hk) as (w' & Hcall & Hcalled & Hframe & Hlater).
    { subst w1. simpl. rewrite verdict_after_stage. exact Hfalse. }
    { intros j b Hj Hb. subst w1. simpl. rewrite verdict_after_stage.
      apply (Htrue (S j)); [lia|exact Hb]. }
    exists w'. split; [exact Hcall|]. repeat split.
    + rewrite Hcalled. subst w1. simpl. unfold stages_called at 1.
      rewrite omap_app. simpl.
      fold (stages_called (pair a0 <$> verdict_calls (objects w a0) event)).
      rewrite stages_called_verdict_calls, <- app_assoc. reflexivity.
    + intros b Hb. rewrite Hframe.
      * subst w1. simpl. apply fn_lookup_insert_ne. intros ->. apply Hb. left.
      * intros Hin. apply Hb. right. exact Hin.
    + intros Hnd j b Hj Hb. apply list.NoDup_cons in Hnd as [Hnotin Hnd].
      destruct j as [|j]; [lia|]. simpl in Hb.
      rewrite (Hlater Hnd j b) by (try lia; exact Hb).
      subst w1. simpl. apply fn_lookup_insert_ne. intros ->.
      apply Hnotin. apply list_elem_of_lookup. eauto.
Qed.

(** The list calls every stage when all of them return [True]. *)
Lemma EventFilterList_passes_all (self : list addr) (event : Event) :
  ∀ w : world,
    (∀ j b, self !! j = Some b → verdict (objects w b) event = Return true) →
    ∃ w', EventFilterList___call__ self event w = (w', Return true)
      ∧ stages_called (calls w') = stages_called (calls w) ++ self.
Proof.
  induction self as [|a0 rest IH]; intros w Htrue.
  - exists w. split; [reflexivity|]. rewrite app_nil_r. reflexivity.
  - rewrite EventFilterList___call___cons, call_stage_eq.
    rewrite (Htrue 0 a0 eq_refl).
    set (w1 := mkWorld _ _).
    destruct (IH w1) as (w' & Hcall & Hcalled).
    { intros j b Hb. subst w1. simpl. rewrite verdict_after_stage.
      apply (Htrue (S j)). exact Hb. }
    exists w'. split; [exact Hcall|].
    rewrite Hcalled. subst w1. simpl. unfold stages_called at 1.
    rewrite omap_app. simpl.
    fold (stages_called (pair a0 <$> verdict_calls (objects w a0) event)).
    rewrite stages_called_verdict_calls, <- app_assoc. reflexivity.
Qed.

(** C6 (as amended).  [EventFilterList.__call__] calls the stages in list
    order.  When the stage at position [k] is the first that returns
    [False], the list returns [False], the stages called are those at
    positions [0..k], in this order, and every stage object that is not
    called is as it was before the call: in a list of pairwise distinct
    stage objects, all those at positions [k+1..N-1].  When every stage
    returns [True] the list returns [True], after calling them all. *)
Theorem EventFilterList_short_circuit
    (self : list addr) (event : Event) (w : world) :
  (∀ k a,
     self !! k = Some a →
     returns (objects w a) event = Return false →
     (∀ j b, j < k → self !! j = Some b → returns (objects w b) event = Return true) →
     ∃ w', EventFilterList___call__ self event w = (w', Return false)
       ∧ stages_called (calls w') = stages_called (calls w) ++ take (S k) self
       ∧ (∀ b, b ∉ take (S k) self → objects w' b = objects w b)
       ∧ (NoDup self →
          ∀ j b, k < j → self !! j = Some b → objects w' b = objects w b))
  ∧ ((∀ j b, self !! j = Some b → returns (objects w b) event = Return true) →
     ∃ w', EventFilterList___call__ self event w = (w', Return true)
       ∧ stages_called (calls w') = stages_called (calls w) ++ self).
Proof.
  split.
  - intros k a Hk Hfalse Htrue. apply (EventFilterList_stops self event w k a Hk).
    + rewrite <- returns_verdict. exact Hfalse.
    + intros j b Hj Hb. rewrite <- returns_verdict. exact (Htrue j b Hj Hb).
  - intros Htrue. apply EventFilterList_passes_all.
    intros j b Hb. rewrite <- returns_verdict. exact (Htrue j b Hb).
Qed.

(** ** The cut flow *)

(** What one event does to the counters of a list of distinct stages: the
    first stage has seen one event more, and between neighbours the
    difference between what the second has seen and what the first has let
    through is as before. *)
Lemma EventFilterList_call_counts (self : list addr) (event : Event) :
  NoDup self →
  ∀ w : world,
    let w' := (EventFilterList___call__ self event w).1 in
    (∀ b, b ∉ self → objects w' b = objects w b)
    ∧ (∀ a, self !! 0 = Some a →
         total (objects w' a) = (total (objects w a) + 1)%Z)
    ∧ (∀ i a b, self !! i = Some a → self !! (S i) = Some b →
         (total (objects w' b) - passing (objects w' a)
          = total (objects w b) - passing (objects w a))%Z).
Proof.
  induction self as [|a0 rest IH]; intros Hnd w; cbv zeta.
  - simpl. repeat split; intros; discriminate.
  - apply list.NoDup_cons in Hnd as [Hnotin Hnd].
    rewrite EventFilterList___call___cons, call_stage_eq.
    set (w1 := mkWorld _ _).
    assert (∀ b, b ≠ a0 → objects w1 b = objects w b) as Hother.
    { intros b Hb. subst w1. simpl. apply fn_lookup_insert_ne. congruence. }
    assert (objects w1 a0 = counted (objects w a0) event) as Hself.
    { subst w1. simpl. apply fn_lookup_insert. }
    assert (∀ i b, rest !! i = Some b → b ≠ a0) as Hrest.
    { intros i b Hb ->. apply Hnotin, list_elem_of_lookup. eauto. }
    destruct (verdict (objects w a0) event) as [[]|e] eqn:Hv.
    + destruct (IH Hnd w1) as (Hframe & Hhead & Hchain).
      set (w' := (EventFilterList___call__ rest event w1).1) in *.
      repeat split.
      * intros b Hb. rewrite Hframe.
        -- apply Hother. intros ->. apply Hb. left.
        -- intros Hin. apply Hb. right. exact Hin.
      * intros a Ha. inversion Ha; subst a.
        rewrite (Hframe a0 Hnotin), Hself. apply total_counted.
      * intros [|i] a b Ha Hb; simpl in Ha, Hb.
        -- inversion Ha; subst a.
           rewrite (Hhead b Hb), (Hother b (Hrest 0 b Hb)).
           rewrite (Hframe a0 Hnotin), Hself, passing_counted, Hv. lia.
        -- rewrite (Hchain i a b Ha Hb).
           rewrite (Hother a (Hrest i a Ha)), (Hother b (Hrest (S i) b Hb)).
           reflexivity.
    + cbn [fst]. repeat split.
      * intros b Hb. apply Hother. intros ->. apply Hb. left.
      * intros a Ha. inversion Ha; subst a. rewrite Hself. apply total_counted.
      * intros [|i] a b Ha Hb; simpl in Ha, Hb.
        -- inversion Ha; subst a.
           rewrite (Hother b (Hrest 0 b Hb)), Hself, passing_counted, Hv. lia.
        -- rewrite (Hother a (Hrest i a Ha)), (Hother b (Hrest (S i) b Hb)).
           reflexivity.
    + cbn [fst]. repeat split.
      * intros b Hb. apply Hother. intros ->. apply Hb. left.
      * intros a Ha. inversion Ha; subst a. rewrite Hself. apply total_counted.
      * intros [|i] a b Ha Hb; simpl in Ha, Hb.
        -- inversion Ha; subst a.
           rewrite (Hother b (Hrest 0 b Hb)), Hself, passing_counted, Hv. lia.
        -- rewrite (Hother a (Hrest i a Ha)), (Hother b (Hrest (S i) b Hb)).
           reflexivity.
Qed.

Lemma EventFilterList_run_cons (self : list addr) (w : world)
    (event : Event) (events : list Event) :
  EventFilterList_run self w (event :: events)
  = EventFilterList_run self (EventFilterList___call__ self event w).1 events.
Proof. reflexivity. Qed.

Lemma EventFilterList_run_counts (self : list addr) (events : list Event) :
  NoDup self →
  ∀ (w : world) (n : Z),
    (∀ a, self !! 0 = Some a → total (objects w a) = n) →
    (∀ i a b, self !! i = Some a → self !! (S i) = Some b →
       total (objects w b) = passing (objects w a)) →
    (∀ a, self !! 0 = Some a →
       total (objects (EventFilterList_run self w events) a)
       = (n + Z.of_nat (length events))%Z)
    ∧ (∀ i a b, self !! i = Some a → self !! (S i) = Some b →
         total (objects (EventFilterList_run self w events) b)
         = passing (objects (EventFilterList_run self w events) a)).
Proof.
  intros Hnd. induction events as [|event events IH]; intros w n Hhead Hchain.
  - simpl. split; [|exact Hchain].
    intros a Ha. rewrite (Hhead a Ha). lia.
  - rewrite EventFilterList_run_cons.
    destruct (EventFilterList_call_counts self event Hnd w) as (_ & Hhead1 & Hchain1).
    set (w1 := (EventFilterList___call__ self event w).1) in *.
    destruct (IH w1 (n + 1)%Z) as [Hhead' Hchain'].
    + intros a Ha. rewrite (Hhead1 a Ha), (Hhead a Ha). reflexivity.
    + intros i a b Ha Hb. specialize (Hchain1 i a b Ha Hb).
      specialize (Hchain i a b Ha Hb). lia.
    + split; [|exact Hchain'].
      intros a Ha. rewrite (Hhead' a Ha). cbn [length]. lia.
Qed.

(** C4 (as amended).  In an [EventFilterList] of [N] pairwise distinct stage
    objects whose counters start at zero, after any sequence of events, each
    submitted once to the list, the [total] of the first stage is the number
    of events submitted and the [total] of every later stage is the
    [passing] of the stage before it. *)
Theorem cut_flow_chain (self : list addr) (w : world) (events : list Event) :
  NoDup self →
  (∀ a, a ∈ self → total (objects w a) = 0%Z ∧ passing (objects w a) = 0%Z) →
  (∀ a, self !! 0 = Some a →
     total (objects (EventFilterList_run self w events) a)
     = Z.of_nat (length events))
  ∧ (∀ i a b, self !! i = Some a → self !! (S i) = Some b →
       total (objects (EventFilterList_run self w events) b)
       = passing (objects (EventFilterList_run self w events) a)).
Proof.
  intros Hnd Hzero.
  apply (EventFilterList_run_counts self events Hnd w 0%Z).
  - intros a Ha. apply Hzero, list_elem_of_lookup. eauto.
  - intros i a b Ha Hb.
    destruct (Hzero a) as [_ ->]; [apply list_elem_of_lookup; eauto|].
    destruct (Hzero b) as [-> _]; [apply list_elem_of_lookup; eauto|].
    reflexivity.
Qed.

(** * Further properties *)

(** ** What Filter.add and FilterList.merge return *)

(** [Filter.add], and with it [f1 + f2], never evaluates to a filter: it
    raises or it evaluates to [None]. *)
Theorem Filter_add_raises_or_None (left right : Filter) (self other : pyval) :
  (raised (Filter_add left right) ∨ Filter_add left right = Return PyNone)
  ∧ (raised (Filter___add__ self other) ∨ Filter___add__ self other = Return PyNone).
Proof.
  split.
  - destruct (Filter_add left right) as [v|e] eqn:Hadd; [right|left; exact I].
    apply Filter_add_Return_None in Hadd. congruence.
  - destruct (Filter___add__ self other) as [v|e] eqn:Hadd; [right|left; exact I].
    apply Filter___add___Return_None in Hadd. congruence.
Qed.

(** [FilterList.merge] returns a list only when one of its operands is
    empty, and the list is empty then: on two non-empty lists it raises. *)
Theorem FilterList_merge_returns_iff_empty (list1 list2 merged : list pyval) :
  FilterList_merge list1 list2 = Return merged
  ↔ merged = [] ∧ (list1 = [] ∨ list2 = []).
Proof.
  split; [apply FilterList_merge_Return|].
  intros [-> [->| ->]]; [reflexivity|].
  destruct list1; reflexivity.
Qed.

(** ** Membership *)

(** [__setitem__] of [FilterList], [EventFilterList] and [ObjectFilterList]
    raises [TypeError] whatever it is called with, a stage of the right kind
    included, and never changes the list. *)
Theorem setitem_raises_on_every_call (args self : list pyval) :
  FilterList___setitem__ args self = (self, Raise TypeError)
  ∧ EventFilterList___setitem__ args self = (self, Raise TypeError)
  ∧ ObjectFilterList___setitem__ args self = (self, Raise TypeError).
Proof.
  split; [|split].
  - apply FilterList___setitem___TypeError.
  - apply EventFilterList___setitem___TypeError.
  - apply ObjectFilterList___setitem___TypeError.
Qed.

(** [append] puts an instance of the class of the list at its end and
    changes nothing else; any other value is refused with the list
    unchanged.  A [FilterList] takes every kind of filter. *)
Theorem append_takes_exactly_the_class (self : list pyval) (stage : pyval) :
  FilterList_append stage self
    = (if isinstance_Filter stage
       then (self ++ [stage], Return tt) else (self, Raise TypeError))
  ∧ EventFilterList_append stage self
    = (if isinstance_EventFilter stage
       then (self ++ [stage], Return tt) else (self, Raise TypeError))
  ∧ ObjectFilterList_append stage self
    = (if isinstance_ObjectFilter stage
       then (self ++ [stage], Return tt) else (self, Raise TypeError)).
Proof. destruct stage; repeat split. Qed.

(** ** Snapshots *)

(** [g.__setstate__(f.__getstate__())] gives [g] the name, the counters and
    the details of [f] and leaves its hooks and its passthrough flag; the
    snapshot of the result is the snapshot of [f]. *)
Theorem setstate_of_getstate (f g : Filter) :
  Filter___setstate__ (Filter___getstate__ f) g
    = (mkFilter (total f) (passing f) (details f) (name f) (hooks g) (passthrough g),
       Return tt)
  ∧ Filter___getstate__ (Filter___setstate__ (Filter___getstate__ f) g).1
    = Filter___getstate__ f.
Proof. split; reflexivity. Qed.

(** [__setstate__] is not atomic: it assigns [name], [total], [passing] and
    [details] in this order and raises [KeyError] at the first entry that
    the dictionary lacks, the attributes before it already overwritten. *)
Theorem setstate_missing_entry (state : state_dict) (g : Filter) :
  (st_name state = None →
     Filter___setstate__ state g = (g, Raise KeyError))
  ∧ (∀ n, st_name state = Some n → st_total state = None →
       Filter___setstate__ state g = (set_name n g, Raise KeyError))
  ∧ (∀ n t, st_name state = Some n → st_total state = Some t →
       st_passing state = None →
       Filter___setstate__ state g = (set_total t (set_name n g), Raise KeyError))
  ∧ (∀ n t p, st_name state = Some n → st_total state = Some t →
       st_passing state = Some p → st_details state = None →
       Filter___setstate__ state g
       = (set_passing p (set_total t (set_name n g)), Raise KeyError))
  ∧ (∀ n t p d, st_name state = Some n → st_total state = Some t →
       st_passing state = Some p → st_details state = Some d →
       Filter___setstate__ state g
       = (mkFilter t p d n (hooks g) (passthrough g), Return tt)
       ∧ Filter___getstate__ (mkFilter t p d n (hooks g) (passthrough g)) = state).
Proof.
  destruct state as [n t p d]. simpl.
  repeat split; intros; subst; try reflexivity.
Qed.

(** [basic] returns the snapshots of the stages in list order when every
    element is a filter.  An element that is no filter is answered by the
    interpreter: where [object.__getstate__] returns (Python 3.11 and later,
    [None]) the list returned has that value at the place of the element,
    where the call raises (before, [AttributeError]) [basic] raises the
    same. *)
Theorem FilterList_basic_snapshots (self : list pyval) :
  (Forall (λ v, isinstance_Filter v = true) self →
     ∃ states, FilterList_basic self = Return states
       ∧ length states = length self
       ∧ ∀ i v, self !! i = Some v →
           ∃ f, attributes v = Some f
                ∧ states !! i = Some (Some (Filter___getstate__ f)))
  ∧ (∀ state, object___getstate__ = Return state →
     ∃ states, FilterList_basic self = Return states
       ∧ length states = length self
       ∧ ∀ i v, self !! i = Some v →
           states !! i = Some (match attributes v with
                               | Some f => Some (Filter___getstate__ f)
                               | None => state
                               end))
  ∧ (∀ e, object___getstate__ = Raise e →
     Exists (λ v, isinstance_Filter v = false) self →
     FilterList_basic self = Raise e).
Proof.
  split; [|split].
  - induction 1 as [|v self Hv _ (states & Hbasic & Hlen & Hstates)].
    + exists []. repeat split. intros i v Hi. discriminate.
    + simpl. rewrite Hbasic. unfold pyval___getstate__.
      destruct v as [| |f|f|f]; try discriminate; simpl;
        eexists; (split; [reflexivity|]); (split; [simpl; lia|]);
        intros [|i] v Hi; simpl in Hi;
          try (inversion Hi; subst; eexists; split; reflexivity);
          exact (Hstates i v Hi).
  - intros state Hobject.
    induction self as [|v self (states & Hbasic & Hlen & Hstates)].
    + exists []. repeat split. intros i v Hi. discriminate.
    + simpl. rewrite Hbasic. unfold pyval___getstate__.
      destruct (attributes v) as [f|] eqn:Hv; rewrite ?Hobject;
        eexists; (split; [reflexivity|]); (split; [simpl; lia|]);
        intros [|i] v' Hi; simpl in Hi;
          try (inversion Hi; subst; rewrite Hv; reflexivity);
          exact (Hstates i v' Hi).
  - intros e Hobject. induction 1 as [v self Hv|v self _ IH]; simpl.
    + unfold pyval___getstate__.
      destruct v; try discriminate; simpl; rewrite Hobject; reflexivity.
    + rewrite IH. destruct (pyval___getstate__ v) as [state|e'] eqn:Hv;
        [reflexivity|].
      unfold pyval___getstate__ in Hv. destruct (attributes v); congruence.
Qed.

(** ** The counters of one stage *)

Lemma counted_eq (o : EventFilter) (event : Event) :
  counted o event =
  mkEventFilter
    (mkFilter (total o + 1)
       (passing o + if is_True (returns o event) then 1 else 0)
       (details o) (name o) (hooks o) (passthrough o))
    (passes o).
Proof.
  rewrite returns_verdict. unfold counted.
  destruct o as [[t p d n h pt] ps]. simpl.
  destruct (verdict _ event) as [[]|e];
    unfold ef_update, add_total, add_passing, set_total, set_passing; simpl;
    f_equal; f_equal; lia.
Qed.

Lemma returns_counted (o : EventFilter) (event event' : Event) :
  returns (counted o event) event' = returns o event'.
Proof. rewrite !returns_verdict. apply verdict_counted. Qed.

(** An [EventFilter] counts its calls: after a run, [total] has grown by
    the number of events and [passing] by the number of those on which the
    stage returned [True], whether the other calls returned [False] or
    raised; the name, the details, the hooks and the passthrough flag are as
    before. *)
Theorem EventFilter_run_counts (events : list Event) (o : EventFilter) :
  EventFilter_run o events =
  mkEventFilter
    (mkFilter (total o + Z.of_nat (length events))
       (passing o
        + Z.of_nat (length (List.filter (λ ev, is_True (returns o ev)) events)))
       (details o) (name o) (hooks o) (passthrough o))
    (passes o).
Proof.
  revert o. induction events as [|event events IH]; intros o.
  - destruct o as [[t p d n h pt] ps]. simpl. f_equal. f_equal; lia.
  - change (EventFilter_run o (event :: events))
      with (EventFilter_run (obj (EventFilter___call__ event (mkFrame o [])).1) events).
    rewrite EventFilter___call___eq. cbn [fst obj]. rewrite IH.
    rewrite (List.filter_ext _ (λ ev, is_True (returns o ev)))
      by (intros ev; rewrite returns_counted; reflexivity).
    rewrite counted_eq. cbn [total passing details name hooks passthrough passes ef_base].
    cbn [List.filter length].
    destruct (is_True (returns o event)); cbn [length]; f_equal; f_equal; lia.
Qed.

(** The hooks of an [EventFilter] are called only when
    [self.passthrough or self.passes(event)] is true, after [passes], in the
    order of the list: all of them, once each, when each returns, and then
    the call returns [True]; up to and including the first that raises
    otherwise, and then its exception leaves the call.  When the condition is
    false or [passes] raises, no hook is called. *)
Theorem hooks_called_in_order_until_one_raises
    (o : EventFilter) (event : Event) (t : list call) :
  (let_through o event ≠ Return true →
     EventFilter___call__ event (mkFrame o t)
     = (mkFrame (ef_update (add_total 1) o)
          (t ++ (if passthrough o then [] else [CallPasses event])),
        let_through o event))
  ∧ (let_through o event = Return true →
     Forall (λ h, target h = Return tt) (default [] (hooks o)) →
     EventFilter___call__ event (mkFrame o t)
     = (mkFrame (ef_update (add_passing 1) (ef_update (add_total 1) o))
          (t ++ (if passthrough o then [] else [CallPasses event])
             ++ (CallHook <$> default [] (hooks o))),
        Return true))
  ∧ (let_through o event = Return true →
     ∀ hs1 h hs2 e,
       default [] (hooks o) = hs1 ++ h :: hs2 →
       Forall (λ h, target h = Return tt) hs1 →
       target h = Raise e →
       EventFilter___call__ event (mkFrame o t)
       = (mkFrame (ef_update (add_total 1) o)
            (t ++ (if passthrough o then [] else [CallPasses event])
               ++ (CallHook <$> (hs1 ++ [h]))),
          Raise e)).
Proof.
  rewrite EventFilter___call___eq. unfold counted, verdict_calls, verdict.
  split; [|split].
  - intros Hno. destruct (let_through o event) as [[]|e];
      [contradiction|rewrite app_nil_r; reflexivity..].
  - intros -> Hall. destruct (hooks_all_return _ Hall) as [-> ->]. reflexivity.
  - intros -> hs1 h hs2 e -> Hall Hh.
    destruct (hooks_first_raise hs1 hs2 h e Hall Hh) as [-> ->]. reflexivity.
Qed.

Lemma ObjectFilter_call_eq' (o : ObjectFilter) (input : Event * list Item) :
  obj (ObjectFilter___call__ input.1 input.2 (mkFrame o [])).1 =
  mkObjectFilter
    (mkFilter (total o + seen o input) (passing o + kept o input)
       (details o) (name o) (hooks o) (passthrough o))
    (count_events o) (filtered o).
Proof.
  rewrite ObjectFilter___call___eq. cbv zeta. unfold seen, kept.
  destruct o as [[t p d n h pt] ce fl]. destruct input as [event c]. simpl.
  destruct (narrowed _ event c) as [[|x c']|e]; simpl;
    unfold of_update, add_total, add_passing, set_total, set_passing; simpl;
    f_equal; f_equal; lia.
Qed.

(** An [ObjectFilter] counts objects, or events with [count_events] set:
    after a run [total] has grown by the sizes of the collections given
    (resp. by their number), and [passing] by the sizes of the non-empty
    collections returned (resp. by their number); a call that raises adds
    nothing to [passing]. *)
Theorem ObjectFilter_run_counts
    (inputs : list (Event * list Item)) (o : ObjectFilter) :
  ObjectFilter_run o inputs =
  mkObjectFilter
    (mkFilter (total o + foldr Z.add 0%Z (seen o <$> inputs))
       (passing o + foldr Z.add 0%Z (kept o <$> inputs))
       (details o) (name o) (hooks o) (passthrough o))
    (count_events o) (filtered o).
Proof.
  revert o. induction inputs as [|input inputs IH]; intros o.
  - destruct o as [[t p d n h pt] ce fl]. simpl. f_equal. f_equal; lia.
  - change (ObjectFilter_run o (input :: inputs))
      with (ObjectFilter_run
              (obj (ObjectFilter___call__ input.1 input.2 (mkFrame o [])).1) inputs).
    rewrite ObjectFilter_call_eq', IH.
    cbn [total passing details name hooks passthrough count_events filtered of_base].
    rewrite !fmap_cons. cbn [foldr].
    assert (∀ t p, seen (mkObjectFilter (mkFilter t p (details o) (name o)
                            (hooks o) (passthrough o)) (count_events o) (filtered o))
                   <$> inputs = seen o <$> inputs) as ->.
    { intros t p. apply list_fmap_ext. intros i x _. reflexivity. }
    assert (∀ t p, kept (mkObjectFilter (mkFilter t p (details o) (name o)
                            (hooks o) (passthrough o)) (count_events o) (filtered o))
                   <$> inputs = kept o <$> inputs) as ->.
    { intros t p. apply list_fmap_ext. intros i x _. reflexivity. }
    f_equal. f_equal; lia.
Qed.

(** ** The result and the counters of an EventFilterList *)

(** A call changes no verdict: the stages keep their [passthrough] and
    their [passes]. *)
Lemma EventFilterList_call_keeps_verdicts (self : list addr) (event : Event) :
  ∀ (w : world) (b : addr) (event' : Event),
    verdict (objects (EventFilterList___call__ self event w).1 b) event'
    = verdict (objects w b) event'.
Proof.
  induction self as [|a rest IH]; intros w b event'; [reflexivity|].
  rewrite EventFilterList___call___cons, call_stage_eq.
  destruct (verdict (objects w a) event) as [[]|e];
    [rewrite IH|..]; cbn [fst objects]; apply verdict_after_stage.
Qed.

(** The result of a call depends on the verdicts of the stages only, not on
    their counters. *)
Lemma EventFilterList_result_ext (self : list addr) (event : Event) :
  ∀ w w' : world,
    (∀ a, verdict (objects w a) event = verdict (objects w' a) event) →
    (EventFilterList___call__ self event w).2
    = (EventFilterList___call__ self event w').2.
Proof.
  induction self as [|a rest IH]; intros w w' Hsame; [reflexivity|].
  rewrite !EventFilterList___call___cons, !call_stage_eq, <- (Hsame a).
  destruct (verdict (objects w a) event) as [[]|e]; try reflexivity.
  apply IH. intros b. cbn [objects]. rewrite !verdict_after_stage. apply Hsame.
Qed.

Lemma accepts_after_call (self : list addr) (w : world) (event event' : Event) :
  accepts self (EventFilterList___call__ self event w).1 event'
  = accepts self w event'.
Proof.
  unfold accepts. erewrite EventFilterList_result_ext; [reflexivity|].
  intros a. apply EventFilterList_call_keeps_verdicts.
Qed.

(** The last stage lets through what the list accepts. *)
Lemma EventFilterList_call_last_passing (self : list addr) (event : Event) :
  NoDup self →
  ∀ (w : world) (a : addr),
    list.last self = Some a →
    passing (objects (EventFilterList___call__ self event w).1 a)
    = (passing (objects w a) + if accepts self w event then 1 else 0)%Z.
Proof.
  induction self as [|a0 rest IH]; intros Hnd w a Hlast; [discriminate|].
  apply list.NoDup_cons in Hnd as [Hnotin Hnd].
  unfold accepts. rewrite EventFilterList___call___cons, call_stage_eq.
  destruct rest as [|a1 rest].
  - inversion Hlast; subst a0.
    destruct (verdict (objects w a) event) as [[]|e] eqn:Hv;
      cbn [fst snd objects EventFilterList___call__ ret];
      rewrite fn_lookup_insert, passing_counted, Hv; reflexivity.
  - assert (a ≠ a0) as Hne.
    { intros ->. apply Hnotin. change (list.last (a1 :: rest) = Some a0) in Hlast.
      apply list.last_Some in Hlast as [l' ->].
      apply elem_of_app. right. apply list_elem_of_singleton. reflexivity. }
    destruct (verdict (objects w a0) event) as [[]|e] eqn:Hv.
    + rewrite (IH Hnd _ a Hlast). cbn [objects].
      rewrite fn_lookup_insert_ne by congruence. reflexivity.
    + cbn [fst snd objects]. rewrite fn_lookup_insert_ne by congruence. lia.
    + cbn [fst snd objects]. rewrite fn_lookup_insert_ne by congruence. lia.
Qed.

Lemma EventFilterList_run_last_passing (self : list addr) (events : list Event) :
  NoDup self →
  ∀ (w : world) (a : addr),
    list.last self = Some a →
    passing (objects (EventFilterList_run self w events) a)
    = (passing (objects w a)
       + Z.of_nat (length (List.filter (accepts self w) events)))%Z.
Proof.
  intros Hnd. induction events as [|event events IH]; intros w a Hlast.
  - simpl. lia.
  - rewrite EventFilterList_run_cons, (IH _ a Hlast).
    rewrite (EventFilterList_call_last_passing self event Hnd w a Hlast).
    rewrite (List.filter_ext _ (accepts self w))
      by (intros ev; apply accepts_after_call).
    cbn [List.filter]. destruct (accepts self w event); cbn [length]; lia.
Qed.

(** The properties [total] and [passing] of an [EventFilterList] of
    pairwise distinct stages that start at zero: after a run, [total] is the
    number of events submitted and [passing] the number of events the list
    accepted.  The empty list reports zero for both, though it accepts every
    event. *)
Theorem EventFilterList_total_and_passing
    (self : list addr) (w : world) (events : list Event) :
  NoDup self →
  (∀ a, a ∈ self → total (objects w a) = 0%Z ∧ passing (objects w a) = 0%Z) →
  FilterList_total (elements self (EventFilterList_run self w events))
    = Return (match self with
              | [] => 0%Z
              | _ :: _ => Z.of_nat (length events)
              end)
  ∧ FilterList_passing (elements self (EventFilterList_run self w events))
    = Return (match self with
              | [] => 0%Z
              | _ :: _ => Z.of_nat (length (List.filter (accepts self w) events))
              end)
  ∧ (self = [] → ∀ event, accepts self w event = true).
Proof.
  intros Hnd Hzero. split; [|split].
  - destruct self as [|a rest]; [reflexivity|]. cbn [elements fmap list_fmap].
    unfold FilterList_total. cbn [attributes]. f_equal.
    destruct (EventFilterList_run_counts (a :: rest) events Hnd w 0%Z) as [Hhead _].
    + intros a' Ha'. apply Hzero, list_elem_of_lookup. eauto.
    + intros i x y Hx Hy.
      destruct (Hzero x) as [_ ->]; [apply list_elem_of_lookup; eauto|].
      destruct (Hzero y) as [-> _]; [apply list_elem_of_lookup; eauto|].
      reflexivity.
    + rewrite (Hhead a eq_refl). lia.
  - unfold FilterList_passing, elements. rewrite fmap_last.
    destruct self as [|a0 rest]; [reflexivity|].
    destruct (list.last (a0 :: rest)) as [a|] eqn:Hlast.
    2: { apply list.last_None in Hlast. discriminate. }
    cbn [fmap option_fmap option_map attributes]. f_equal.
    rewrite (EventFilterList_run_last_passing _ events Hnd w a Hlast).
    destruct (Hzero a) as [_ ->]; [|lia].
    apply list.last_Some in Hlast as [l' Hl']. rewrite Hl'.
    apply elem_of_app. right. apply list_elem_of_singleton. reflexivity.
  - intros -> event. reflexivity.
Qed.

(** The list stops at the first stage that does not return [True],
    whatever that stage does instead. *)
Lemma EventFilterList_stops_at (self : list addr) (event : Event) (r : result bool) :
  r ≠ Return true →
  ∀ (w : world) (k : nat) (a : addr),
    self !! k = Some a →
    verdict (objects w a) event = r →
    (∀ j b, j < k → self !! j = Some b → verdict (objects w b) event = Return true) →
    ∃ w', EventFilterList___call__ self event w = (w', r)
      ∧ stages_called (calls w') = stages_called (calls w) ++ take (S k) self
      ∧ (∀ b, b ∉ take (S k) self → objects w' b = objects w b).
Proof.
  intros Hr.
  induction self as [|a0 rest IH]; intros w k a Hk Hv Htrue; [discriminate|].
  rewrite EventFilterList___call___cons, call_stage_eq.
  destruct k as [|k]; simpl in Hk.
  - inversion Hk; subst a0. rewrite Hv.
    exists (mkWorld (<[a := counted (objects w a) event]> (objects w))
              (calls w ++ (a, CallStage event)
                 :: (pair a <$> verdict_calls (objects w a) event))).
    split; [destruct r as [[]|e]; [congruence|reflexivity..]|].
    cbn [calls objects]. unfold stages_called at 1. rewrite omap_app. simpl.
    fold (stages_called (pair a <$> verdict_calls (objects w a) event)).
    rewrite stages_called_verdict_calls. split; [reflexivity|].
    intros b Hb. apply fn_lookup_insert_ne. intros ->. apply Hb. left.
  - rewrite (Htrue 0 a0 ltac:(lia) eq_refl).
    set (w1 := mkWorld _ _).
    destruct (IH w1 k a Hk) as (w' & Hcall & Hcalled & Hframe).
    { subst w1. simpl. rewrite verdict_after_stage. exact Hv. }
    { intros j b Hj Hb. subst w1. simpl. rewrite verdict_after_stage.
      apply (Htrue (S j)); [lia|exact Hb]. }
    exists w'. split; [exact Hcall|]. split.
    + rewrite Hcalled. subst w1. simpl. unfold stages_called at 1.
      rewrite omap_app. simpl.
      fold (stages_called (pair a0 <$> verdict_calls (objects w a0) event)).
      rewrite stages_called_verdict_calls, <- app_assoc. reflexivity.
    + intros b Hb. rewrite Hframe.
      * subst w1. simpl. apply fn_lookup_insert_ne. intros ->. apply Hb. left.
      * intros Hin. apply Hb. right. exact Hin.
Qed.

(** An exception raised by a stage leaves the list: when the first stage
    that does not return [True] raises, the call of the list raises the same
    exception, the stages after it are not called and no stage object that
    was not called has changed. *)
Theorem EventFilterList_raises_what_a_stage_raises
    (self : list addr) (event : Event) (w : world) (k : nat) (a : addr) (e : exn) :
  self !! k = Some a →
  returns (objects w a) event = Raise e →
  (∀ j b, j < k → self !! j = Some b → returns (objects w b) event = Return true) →
  ∃ w', EventFilterList___call__ self event w = (w', Raise e)
    ∧ stages_called (calls w') = stages_called (calls w) ++ take (S k) self
    ∧ (∀ b, b ∉ take (S k) self → objects w' b = objects w b).
Proof.
  intros Hk Hraise Htrue.
  apply (EventFilterList_stops_at self event (Raise e) ltac:(discriminate) w k a Hk).
  - rewrite <- returns_verdict. exact Hraise.
  - intros j b Hj Hb. rewrite <- returns_verdict. exact (Htrue j b Hj Hb).
Qed.

(** ** ObjectFilterList.__call__ *)

Lemma call_ostage_eq (a : addr) (event : Event) (c : list Item) (w : oworld) :
  call_ostage a event c w =
  (mkOWorld (<[a := ocounted (ofilters w a) (event, c)]> (ofilters w))
     (ocalls w ++ (a, CallStage event)
        :: (pair a <$> if passthrough (ofilters w a) then []
                       else [CallFiltered event c])),
   narrowed (ofilters w a) event c).
Proof.
  unfold call_ostage, at_ofilter, bind, modify. cbn [ofilters ocalls].
  pose proof (ObjectFilter_call_eq' (ofilters w a) (event, c)) as Hobj.
  rewrite ObjectFilter___call___eq in Hobj |- *. cbv zeta in Hobj |- *.
  cbn [fst snd] in Hobj.
  destruct (narrowed (ofilters w a) event c) as [c'|e];
    cbn [fst obj trace] in Hobj |- *; rewrite Hobj, <- app_assoc; reflexivity.
Qed.

Lemma ObjectFilterList___call___cons (a : addr) (rest : list addr)
    (event : Event) (c : list Item) (w : oworld) :
  ObjectFilterList___call__ (a :: rest) event c w =
  match call_ostage a event c w with
  | (w1, Return []) => (w1, Return [])
  | (w1, Return (x :: c')) => ObjectFilterList___call__ rest event (x :: c') w1
  | (w1, Raise e) => (w1, Raise e)
  end.
Proof.
  simpl. unfold bind.
  destruct (call_ostage a event c w) as [w1 [[|x c']|e]]; reflexivity.
Qed.

(** What a stage returns is the collection given or what [filtered] makes
    of it, never more objects when [filtered] narrows. *)
Lemma narrowed_length (o : ObjectFilter) (event : Event) (c c' : list Item) :
  narrowing o → narrowed o event c = Return c' → length c' ≤ length c.
Proof.
  unfold narrowed. intros Hn Hc. destruct (passthrough o).
  - inversion Hc. reflexivity.
  - exact (Hn event c c' Hc).
Qed.

Lemma narrowing_after_stage (a b : addr) (input : Event * list Item) (w : oworld) :
  narrowing ((<[a := ocounted (ofilters w a) input]> (ofilters w)) b)
  ↔ narrowing (ofilters w b).
Proof.
  destruct (decide (a = b)) as [->|Hne].
  - rewrite fn_lookup_insert. reflexivity.
  - rewrite fn_lookup_insert_ne by exact Hne. reflexivity.
Qed.

(** A list of stages that narrow returns no more objects than it is
    given. *)
Theorem ObjectFilterList_returns_no_more (self : list addr) (event : Event) :
  ∀ (w : oworld) (collection output : list Item),
    (∀ a, a ∈ self → narrowing (ofilters w a)) →
    (ObjectFilterList___call__ self event collection w).2 = Return output →
    length output ≤ length collection.
Proof.
  induction self as [|a rest IH]; intros w c output Hn Hcall.
  - inversion Hcall. reflexivity.
  - rewrite ObjectFilterList___call___cons, call_ostage_eq in Hcall.
    destruct (narrowed (ofilters w a) event c) as [[|x c1]|e] eqn:Hc1.
    + inversion Hcall. simpl. lia.
    + apply narrowed_length in Hc1; [|apply Hn; left].
      apply IH in Hcall; [lia|].
      intros b Hb. cbn [ofilters]. apply narrowing_after_stage, Hn. right. exact Hb.
    + discriminate.
Qed.

Lemma oreturns_narrowed (o : ObjectFilter) (event : Event) (c : list Item) :
  oreturns o event c = narrowed o event c.
Proof.
  unfold oreturns. rewrite ObjectFilter___call___eq. cbv zeta.
  destruct (narrowed o event c); reflexivity.
Qed.

(** Counting changes neither [passthrough] nor [filtered]. *)
Lemma oreturns_after_stage (a b : addr) (input : Event * list Item) (w : oworld)
    (event : Event) (c : list Item) :
  oreturns ((<[a := ocounted (ofilters w a) input]> (ofilters w)) b) event c
  = oreturns (ofilters w b) event c.
Proof.
  destruct (decide (a = b)) as [->|Hne].
  - rewrite fn_lookup_insert, !oreturns_narrowed. reflexivity.
  - rewrite fn_lookup_insert_ne by exact Hne. reflexivity.
Qed.

Lemma handed_ext (self : list addr) (w1 w : oworld) (event : Event) :
  (∀ b c, oreturns (ofilters w1 b) event c = oreturns (ofilters w b) event c) →
  ∀ c k, handed self w1 event c k = handed self w event c k.
Proof.
  intros Hsame. induction self as [|a rest IH]; intros c [|k]; try reflexivity.
  simpl. rewrite Hsame.
  destruct (oreturns (ofilters w a) event c) as [[|x c1]|e]; try reflexivity.
  apply IH.
Qed.

(** [ObjectFilterList.__call__] hands the collection from stage to stage, in
    list order.  When the stage at position [k] is the first that returns
    an empty collection or raises, the list returns the empty list, resp.
    raises the same exception; the stages called are those at positions
    [0..k], in this order, and every stage object that is not called is as
    it was.  When no stage does, all the stages are called and the list
    returns what the last stage has returned, which is not empty unless the
    list has no stage and is given an empty collection; a list without
    stages returns the collection given.  One of the two cases holds. *)
Theorem ObjectFilterList_stops_at_first_empty
    (self : list addr) (event : Event) (w : oworld) (collection : list Item) :
  (∀ k a c r,
     self !! k = Some a →
     handed self w event collection k = Some c →
     oreturns (ofilters w a) event c = r →
     r = Return [] ∨ raised r →
     ∃ w', ObjectFilterList___call__ self event collection w = (w', r)
       ∧ stages_called (ocalls w') = stages_called (ocalls w) ++ take (S k) self
       ∧ (∀ b, b ∉ take (S k) self → ofilters w' b = ofilters w b))
  ∧ (∀ c,
     handed self w event collection (length self) = Some c →
     ∃ w', ObjectFilterList___call__ self event collection w = (w', Return c)
       ∧ stages_called (ocalls w') = stages_called (ocalls w) ++ self
       ∧ (∀ b, b ∉ self → ofilters w' b = ofilters w b)
       ∧ (c = [] → self = [] ∧ collection = []))
  ∧ ((∃ k a c,
        self !! k = Some a
        ∧ handed self w event collection k = Some c
        ∧ (oreturns (ofilters w a) event c = Return []
           ∨ raised (oreturns (ofilters w a) event c)))
     ∨ (∃ c, handed self w event collection (length self) = Some c))
  ∧ (self = [] →
     ObjectFilterList___call__ self event collection w = (w, Return collection)).
Proof.
  revert w collection.
  induction self as [|a0 rest IH]; intros w c0.
  { split; [|split; [|split]].
    - intros k a c r Hk. discriminate.
    - intros c Hc. inversion Hc; subst c. exists w. simpl.
      rewrite app_nil_r. repeat split; auto.
    - right. exists c0. reflexivity.
    - reflexivity. }
  assert (∀ w1 : oworld,
    ofilters w1 = <[a0 := ocounted (ofilters w a0) (event, c0)]> (ofilters w) →
    (∀ b c, oreturns (ofilters w1 b) event c = oreturns (ofilters w b) event c)
    ∧ (∀ b, b ≠ a0 → ofilters w1 b = ofilters w b)) as Hstage.
  { intros w1 Hw1. rewrite Hw1. split.
    - intros b c. apply oreturns_after_stage.
    - intros b Hb. apply fn_lookup_insert_ne. congruence. }
  assert (∀ w1 : oworld,
    ocalls w1 = ocalls w ++ (a0, CallStage event)
                  :: (pair a0 <$> if passthrough (ofilters w a0) then []
                                  else [CallFiltered event c0]) →
    stages_called (ocalls w1) = stages_called (ocalls w) ++ [a0]) as Hcalled1.
  { intros w1 ->. unfold stages_called. rewrite omap_app. simpl.
    f_equal. f_equal. destruct (passthrough (ofilters w a0)); reflexivity. }
  rewrite ObjectFilterList___call___cons, call_ostage_eq.
  set (w1 := mkOWorld _ _) in *.
  destruct (Hstage w1 eq_refl) as [Hsame Hother].
  specialize (Hcalled1 w1 eq_refl).
  rewrite <- oreturns_narrowed.
  split; [|split; [|split]].
  - intros [|k] a c r Hk Hc Hr Hstop; simpl in Hk, Hc.
    + inversion Hk; subst a0. inversion Hc; subst c. rewrite Hr.
      exists w1. split; [destruct Hstop as [->|Hraised];
                          [reflexivity|destruct r; [destruct Hraised|reflexivity]]|].
      split; [exact Hcalled1|].
      intros b Hb. apply Hother. intros ->. apply Hb. left.
    + destruct (oreturns (ofilters w a0) event c0) as [[|x c1]|e];
        try discriminate.
      rewrite <- (handed_ext rest w1 w event Hsame) in Hc.
      rewrite <- Hsame in Hr.
      destruct (IH w1 (x :: c1)) as (IHstop & _).
      destruct (IHstop k a c r Hk Hc Hr Hstop)
        as (w' & Hcall & Hcalled & Hframe).
      exists w'. split; [exact Hcall|]. split.
      * rewrite Hcalled, Hcalled1, <- app_assoc. reflexivity.
      * intros b Hb. rewrite Hframe.
        -- apply Hother. intros ->. apply Hb. left.
        -- intros Hin. apply Hb. right. exact Hin.
  - intros c Hc. simpl in Hc.
    destruct (oreturns (ofilters w a0) event c0) as [[|x c1]|e];
      try discriminate.
    rewrite <- (handed_ext rest w1 w event Hsame) in Hc.
    destruct (IH w1 (x :: c1)) as (_ & IHend & _).
    destruct (IHend c Hc) as (w' & Hcall & Hcalled & Hframe & Hempty).
    exists w'. split; [exact Hcall|]. split; [|split].
    + rewrite Hcalled, Hcalled1, <- app_assoc. reflexivity.
    + intros b Hb. rewrite Hframe.
      * apply Hother. intros ->. apply Hb. left.
      * intros Hin. apply Hb. right. exact Hin.
    + intros ->. destruct (Hempty eq_refl) as [_ Hnil]. discriminate.
  - destruct (oreturns (ofilters w a0) event c0) as [[|x c1]|e] eqn:Hfirst.
    + left. exists 0, a0, c0. rewrite Hfirst. repeat split. left. reflexivity.
    + destruct (IH w1 (x :: c1)) as (_ & _ & IHcases & _).
      destruct IHcases as [(k & a & c & Hk & Hc & Hstop)|[c Hc]].
      * left. exists (S k), a, c. split; [exact Hk|]. simpl. rewrite Hfirst.
        rewrite <- (handed_ext rest w1 w event Hsame), <- Hsame.
        split; [exact Hc|exact Hstop].
      * right. exists c. simpl. rewrite Hfirst.
        rewrite <- (handed_ext rest w1 w event Hsame). exact Hc.
    + left. exists 0, a0, c0. rewrite Hfirst. repeat split. right. exact I.
  - discriminate.
Qed.

(** A call changes the counters only: every stage keeps its mode. *)
Lemma ObjectFilterList_call_keeps_mode (self : list addr) (event : Event) :
  ∀ (w : oworld) (c : list Item) (b : addr),
    count_events (ofilters (ObjectFilterList___call__ self event c w).1 b)
    = count_events (ofilters w b).
Proof.
  induction self as [|a rest IH]; intros w c b; [reflexivity|].
  rewrite ObjectFilterList___call___cons, call_ostage_eq.
  assert (count_events
            ((<[a := ocounted (ofilters w a) (event, c)]> (ofilters w)) b)
          = count_events (ofilters w b)) as Hstage.
  { destruct (decide (a = b)) as [->|Hne].
    - rewrite fn_lookup_insert. reflexivity.
    - rewrite fn_lookup_insert_ne by exact Hne. reflexivity. }
  destruct (narrowed (ofilters w a) event c) as [[|x c1]|e];
    [|rewrite IH|]; cbn [fst ofilters]; exact Hstage.
Qed.

(** What one collection does to the counters of a list of distinct stages
    that count in the same mode. *)
Lemma ObjectFilterList_call_counts (self : list addr) (event : Event) (mode : bool) :
  NoDup self →
  ∀ (w : oworld) (c : list Item),
    (∀ a, a ∈ self → count_events (ofilters w a) = mode) →
    let w' := (ObjectFilterList___call__ self event c w).1 in
    (∀ b, b ∉ self → ofilters w' b = ofilters w b)
    ∧ (∀ a, self !! 0 = Some a →
         total (ofilters w' a) = (total (ofilters w a) + if mode then 1 else len c)%Z)
    ∧ (∀ i a b, self !! i = Some a → self !! (S i) = Some b →
         (total (ofilters w' b) - passing (ofilters w' a)
          = total (ofilters w b) - passing (ofilters w a))%Z).
Proof.
  induction self as [|a0 rest IH]; intros Hnd w c Hmode; cbv zeta.
  - simpl. repeat split; intros; discriminate.
  - apply list.NoDup_cons in Hnd as [Hnotin Hnd].
    rewrite ObjectFilterList___call___cons, call_ostage_eq.
    set (w1 := mkOWorld _ _).
    assert (∀ b, b ≠ a0 → ofilters w1 b = ofilters w b) as Hother.
    { intros b Hb. subst w1. cbn [ofilters]. apply fn_lookup_insert_ne. congruence. }
    assert (ofilters w1 a0 = ocounted (ofilters w a0) (event, c)) as Hself.
    { subst w1. cbn [ofilters]. apply fn_lookup_insert. }
    assert (∀ i b, rest !! i = Some b → b ≠ a0) as Hrest.
    { intros i b Hb ->. apply Hnotin, list_elem_of_lookup. eauto. }
    assert (count_events (ofilters w a0) = mode) as Hmode0 by (apply Hmode; left).
    assert (total (ocounted (ofilters w a0) (event, c))
            = (total (ofilters w a0) + if mode then 1 else len c)%Z) as Htotal.
    { unfold ocounted, seen. cbn [total of_base snd]. rewrite Hmode0. reflexivity. }
    assert (∀ b, b ∈ rest → count_events (ofilters w1 b) = mode) as Hmode1.
    { intros b Hb. rewrite Hother; [apply Hmode; right; exact Hb|].
      intros ->. exact (Hnotin Hb). }
    destruct (narrowed (ofilters w a0) event c) as [[|x c1]|e] eqn:Hout.
    + cbn [fst]. repeat split.
      * intros b Hb. apply Hother. intros ->. apply Hb. left.
      * intros a Ha. inversion Ha; subst a. rewrite Hself. exact Htotal.
      * intros [|i] a b Ha Hb; simpl in Ha, Hb.
        -- inversion Ha; subst a.
           rewrite (Hother b (Hrest 0 b Hb)), Hself.
           unfold ocounted, kept. cbn [passing of_base fst snd]. rewrite Hout. lia.
        -- rewrite (Hother a (Hrest i a Ha)), (Hother b (Hrest (S i) b Hb)).
           reflexivity.
    + destruct (IH Hnd w1 (x :: c1) Hmode1) as (Hframe & Hhead & Hchain).
      set (w' := (ObjectFilterList___call__ rest event (x :: c1) w1).1) in *.
      repeat split.
      * intros b Hb. rewrite Hframe.
        -- apply Hother. intros ->. apply Hb. left.
        -- intros Hin. apply Hb. right. exact Hin.
      * intros a Ha. inversion Ha; subst a.
        rewrite (Hframe a0 Hnotin), Hself. exact Htotal.
      * intros [|i] a b Ha Hb; simpl in Ha, Hb.
        -- inversion Ha; subst a.
           rewrite (Hhead b Hb), (Hother b (Hrest 0 b Hb)).
           rewrite (Hframe a0 Hnotin), Hself.
           unfold ocounted, kept. cbn [passing of_base fst snd].
           rewrite Hout, Hmode0. lia.
        -- rewrite (Hchain i a b Ha Hb).
           rewrite (Hother a (Hrest i a Ha)), (Hother b (Hrest (S i) b Hb)).
           reflexivity.
    + cbn [fst]. repeat split.
      * intros b Hb. apply Hother. intros ->. apply Hb. left.
      * intros a Ha. inversion Ha; subst a. rewrite Hself. exact Htotal.
      * intros [|i] a b Ha Hb; simpl in Ha, Hb.
        -- inversion Ha; subst a.
           rewrite (Hother b (Hrest 0 b Hb)), Hself.
           unfold ocounted, kept. cbn [passing of_base fst snd]. rewrite Hout. lia.
        -- rewrite (Hother a (Hrest i a Ha)), (Hother b (Hrest (S i) b Hb)).
           reflexivity.
Qed.

Lemma ObjectFilterList_run_cons (self : list addr) (w : oworld)
    (input : Event * list Item) (inputs : list (Event * list Item)) :
  ObjectFilterList_run self w (input :: inputs)
  = ObjectFilterList_run self
      (ObjectFilterList___call__ self input.1 input.2 w).1 inputs.
Proof. reflexivity. Qed.

(** The cut flow of an [ObjectFilterList]: in a list of pairwise distinct
    stages that all count objects, or all count events, and start at zero,
    after any run the [total] of every stage but the first is the [passing]
    of the stage before it, and the [total] of the first is the number of
    objects (resp. of collections) submitted.  Calls that raise are
    included. *)
Theorem ObjectFilterList_cut_flow
    (self : list addr) (mode : bool) (w : oworld)
    (inputs : list (Event * list Item)) :
  NoDup self →
  (∀ a, a ∈ self → count_events (ofilters w a) = mode) →
  (∀ a, a ∈ self → total (ofilters w a) = 0%Z ∧ passing (ofilters w a) = 0%Z) →
  (∀ a, self !! 0 = Some a →
     total (ofilters (ObjectFilterList_run self w inputs) a)
     = foldr Z.add 0%Z ((λ input, if mode then 1%Z else len input.2) <$> inputs))
  ∧ (∀ i a b, self !! i = Some a → self !! (S i) = Some b →
       total (ofilters (ObjectFilterList_run self w inputs) b)
       = passing (ofilters (ObjectFilterList_run self w inputs) a)).
Proof.
  intros Hnd Hmode Hzero.
  assert (∀ (inputs : list (Event * list Item)) (w : oworld) (n : Z),
    (∀ a, a ∈ self → count_events (ofilters w a) = mode) →
    (∀ a, self !! 0 = Some a → total (ofilters w a) = n) →
    (∀ i a b, self !! i = Some a → self !! (S i) = Some b →
       total (ofilters w b) = passing (ofilters w a)) →
    (∀ a, self !! 0 = Some a →
       total (ofilters (ObjectFilterList_run self w inputs) a)
       = (n + foldr Z.add 0%Z
                ((λ input, if mode then 1%Z else len input.2) <$> inputs))%Z)
    ∧ (∀ i a b, self !! i = Some a → self !! (S i) = Some b →
         total (ofilters (ObjectFilterList_run self w inputs) b)
         = passing (ofilters (ObjectFilterList_run self w inputs) a))) as Hrun.
  { clear w inputs Hmode Hzero.
    induction inputs as [|[event c] inputs IH]; intros w n Hmode Hhead Hchain.
    - simpl. split; [|exact Hchain]. intros a Ha. rewrite (Hhead a Ha). lia.
    - rewrite ObjectFilterList_run_cons. cbn [fst snd].
      destruct (ObjectFilterList_call_counts self event mode Hnd w c Hmode)
        as (_ & Hhead1 & Hchain1).
      pose proof (ObjectFilterList_call_keeps_mode self event w c) as Hkeep.
      set (w1 := (ObjectFilterList___call__ self event c w).1) in *.
      destruct (IH w1 (n + if mode then 1 else len c)%Z) as [Hhead' Hchain'].
      + intros a Ha. rewrite Hkeep. exact (Hmode a Ha).
      + intros a Ha. rewrite (Hhead1 a Ha), (Hhead a Ha). reflexivity.
      + intros i a b Ha Hb. specialize (Hchain1 i a b Ha Hb).
        specialize (Hchain i a b Ha Hb). lia.
      + split; [|exact Hchain'].
        intros a Ha. rewrite (Hhead' a Ha), fmap_cons. cbn [foldr snd]. lia. }
  destruct (Hrun inputs w 0%Z Hmode) as [Hhead Hchain].
  - intros a Ha. apply Hzero, list_elem_of_lookup. eauto.
  - intros i a b Ha Hb.
    destruct (Hzero a) as [_ ->]; [apply list_elem_of_lookup; eauto|].
    destruct (Hzero b) as [-> _]; [apply list_elem_of_lookup; eauto|].
    reflexivity.
  - split; [|exact Hchain]. intros a Ha. rewrite (Hhead a Ha). lia.
Qed.

End Filtering.

Arguments mkFilter {Hook} total passing details name hooks passthrough.
Arguments total {Hook} f.
Arguments passing {Hook} f.
Arguments details {Hook} f.
Arguments name {Hook} f.
Arguments hooks {Hook} f.
Arguments passthrough {Hook} f.
Arguments mkEventFilter {Event Hook} ef_base passes.
Arguments ef_base {Event Hook} e.
Arguments passes {Event Hook} e event.
Arguments mkObjectFilter {Event Item Hook} of_base count_events filtered.
Arguments of_base {Event Item Hook} o.
Arguments count_events {Event Item Hook} o.
Arguments filtered {Event Item Hook} o event collection.
Arguments PyNone {Event Item Hook}.
Arguments PyInt {Event Item Hook} z.
Arguments PyFilter {Event Item Hook} f.
Arguments PyEventFilter {Event Item Hook} f.
Arguments PyObjectFilter {Event Item Hook} f.
Arguments CallPasses {Event Item Hook} event.
Arguments CallFiltered {Event Item Hook} event collection.
Arguments CallHook {Event Item Hook} hook.
Arguments CallStage {Event Item Hook} event.
Arguments mkFrame {Event Item Hook T} obj trace.
Arguments obj {Event Item Hook T} f.
Arguments trace {Event Item Hook T} f.
Arguments mkOWorld {Event Item Hook} ofilters ocalls.
Arguments ofilters {Event Item Hook} o a.
Arguments ocalls {Event Item Hook} o.
Arguments mkWorld {Event Item Hook} objects calls.
Arguments objects {Event Item Hook} w a.
Arguments calls {Event Item Hook} w.

(** * Concrete runs *)

(** Events and objects are numbers here, hooks are named. *)

(** Two chunk reports of the list [has_lepton], [pt>20]: 100/80 and 80/50
    in chunk A, 50/40 and 40/25 in chunk B. *)
Definition report (name : string) (total passing : Z) (details : gmap string Z)
    : pyval nat nat string :=
  PyFilter (mkFilter total passing details name None false).

Definition chunk_A : list (pyval nat nat string) :=
  [report "has_lepton" 100 80 ∅; report "pt>20" 80 50 ∅].
Definition chunk_B : list (pyval nat nat string) :=
  [report "has_lepton" 50 40 ∅; report "pt>20" 40 25 ∅].

Definition lepton_A : Filter string := mkFilter 100 80 ∅ "has_lepton" None false.
Definition lepton_B : Filter string := mkFilter 50 40 ∅ "has_lepton" None false.
(** The same stage with a sub-counter that chunk A never incremented. *)
Definition lepton_B_detailed : Filter string :=
  mkFilter 50 40 {[ "no_track" := 7%Z ]} "has_lepton" None false.
Definition muon_B : Filter string := mkFilter 50 40 ∅ "has_muon" None false.

(** An event passes [has_lepton] when it is below 80 and [pt>20] when it is
    below 50; the third stage has no [passes] of its own and is switched to
    passthrough. *)
Definition has_lepton : EventFilter nat string :=
  mkEventFilter (Filter___init__ string "has_lepton" (Some ["count"; "log"]) false)
    (λ event, Return (event <? 80)).
Definition pt_cut : EventFilter nat string :=
  mkEventFilter (Filter___init__ string "pt>20" None false)
    (λ event, Return (event <? 50)).
Definition disabled_cut : EventFilter nat string :=
  mkEventFilter (Filter___init__ string "trigger" None true) (EventFilter_passes nat).
Definition unfinished_cut : EventFilter nat string :=
  mkEventFilter (Filter___init__ string "EventFilter" None false) (EventFilter_passes nat).

(** The target of the hook [sync] fails, the others return. *)
Definition hook_target (hook : string) : result unit :=
  if String.eqb hook "sync" then Raise (Exception "disk full") else Return tt.

(** Two stages switched to passthrough that have hooks; the second hook of
    [synced_gate] is the one that fails. *)
Definition counted_gate : EventFilter nat string :=
  mkEventFilter (Filter___init__ string "trigger" (Some ["count"; "log"]) true)
    (EventFilter_passes nat).
Definition synced_gate : EventFilter nat string :=
  mkEventFilter (Filter___init__ string "trigger" (Some ["count"; "sync"; "log"]) true)
    (EventFilter_passes nat).

Definition stages : world nat nat string :=
  mkWorld (λ a, match a with
                | 0 => has_lepton
                | 1 => pt_cut
                | _ => disabled_cut
                end) [].

(** An object filter that keeps the even objects, counting objects, and
    one that counts events; one without [filtered] of its own. *)
Definition keep_even (count_events passthrough : bool) : ObjectFilter nat nat string :=
  mkObjectFilter (Filter___init__ string "even" None passthrough) count_events
    (λ _ collection, Return (base.filter (λ x, Nat.even x = true) collection)).
Definition unfinished_selection : ObjectFilter nat nat string :=
  mkObjectFilter (Filter___init__ string "ObjectFilter" None false) false
    (ObjectFilter_filtered nat nat).

Definition some_events : list nat := [10; 60; 90; 20].
Definition some_collections : list (nat * list nat) :=
  [(0, [1; 2; 3; 4]); (1, []); (2, [5])].

(** ** Filter.add and FilterList.merge *)

(** The two filters have the same name and different key sets of
    [details]: [Filter.add] raises nothing, and what it returns is [None]. *)
Lemma Filter_add_extra_key_no_error :
  name lepton_A = name lepton_B_detailed
  ∧ dom (details lepton_A) ≠ dom (details lepton_B_detailed)
  ∧ Filter_add nat nat string lepton_A lepton_B_detailed = Return PyNone.
Proof.
  split; [reflexivity|]. split; [|reflexivity].
  unfold lepton_A, lepton_B_detailed. simpl.
  rewrite dom_empty_L, dom_singleton_L. set_solver.
Qed.

Lemma Filter_add_builds_sum_witness :
  Filter_add nat nat string lepton_A muon_B = Raise ValueError
  ∧ Filter_add nat nat string lepton_B_detailed lepton_A = Raise KeyError
  ∧ Filter_add_newfilter nat nat string lepton_A lepton_B_detailed
    = mkFilter 150 120 (map_zip_with Z.add ∅ {[ "no_track" := 7%Z ]})
        "has_lepton" None false.
Proof.
  pose proof (Filter_add_builds_sum nat nat string lepton_A muon_B) as [Hname _].
  pose proof (Filter_add_builds_sum nat nat string lepton_B_detailed lepton_A)
    as [_ Hkey].
  pose proof (Filter_add_builds_sum nat nat string lepton_A lepton_B_detailed)
    as [_ Hsum].
  split; [|split].
  - apply Hname. discriminate.
  - apply (proj1 (Hkey eq_refl) "no_track"); [eexists|]; reflexivity.
  - apply (proj2 (Hsum eq_refl)). simpl. rewrite dom_empty_L. set_solver.
Defined.

(** Lists of different lengths are merged without an error. *)
Lemma FilterList_merge_lengths_differ_no_error :
  length (@nil (pyval nat nat string)) ≠ length chunk_A
  ∧ FilterList_merge nat nat string [] chunk_A = Return []
  ∧ FilterList_merge nat nat string chunk_A [] = Return [].
Proof. split; [discriminate|]. split; reflexivity. Qed.

Lemma FilterList_merge_pairs_witness :
  FilterList_merge nat nat string [] chunk_A = Return []
  ∧ FilterList_merge nat nat string [PyFilter lepton_A] [PyFilter muon_B; PyNone]
    = Raise ValueError.
Proof.
  pose proof (FilterList_merge_pairs nat nat string [] chunk_A)
    as (_ & Hempty & _).
  pose proof (FilterList_merge_pairs nat nat string
                [PyFilter lepton_A] [PyFilter muon_B; PyNone])
    as (_ & _ & Hfirst & _).
  split.
  - apply Hempty. reflexivity.
  - apply (Hfirst 0 (PyFilter lepton_A) (PyFilter muon_B) ValueError);
      [intros []|reflexivity..].
Defined.

(** C3.  The two chunk reports of the same list are not merged: because
    [Filter.add] returns [None] where it has built the sum (150/120 for the
    first stage), [FilterList.append] refuses what [merge] hands it and the
    call raises [TypeError], in either order of the operands. *)
Theorem FilterList_merge_chunk_reports_TypeError :
  FilterList_merge nat nat string chunk_A chunk_B = Raise TypeError
  ∧ FilterList_merge nat nat string chunk_B chunk_A = Raise TypeError
  ∧ Filter_add nat nat string lepton_A lepton_B = Return PyNone
  ∧ total (Filter_add_newfilter nat nat string lepton_A lepton_B) = 150%Z
  ∧ passing (Filter_add_newfilter nat nat string lepton_A lepton_B) = 120%Z.
Proof. repeat split; vm_compute; reflexivity. Qed.

(** ** Membership *)



(** ** Evaluation of one stage *)

(** With [passthrough] set and a hook that raises, the call does not return
    [True]: the exception of the hook leaves it, after [total] has counted
    the event and before [passing] has. *)
Lemma passthrough_stage_hook_raises :
  passthrough synced_gate = true
  ∧ (EventFilter___call__ nat nat string hook_target 7 (mkFrame synced_gate [])).2
    = Raise (Exception "disk full")
  ∧ total (obj (EventFilter___call__ nat nat string hook_target 7
                  (mkFrame synced_gate [])).1) = 1%Z
  ∧ passing (obj (EventFilter___call__ nat nat string hook_target 7
                    (mkFrame synced_gate [])).1) = 0%Z
  ∧ trace (EventFilter___call__ nat nat string hook_target 7
             (mkFrame synced_gate [])).1
    = [CallHook "count"; CallHook "sync"].
Proof. repeat split. Qed.

Lemma EventFilter_passthrough_skips_passes_witness :
  (∃ o', EventFilter___call__ nat nat string hook_target 7 (mkFrame counted_gate [])
         = (mkFrame o' [CallHook "count"; CallHook "log"], Return true)
     ∧ total o' = 1%Z ∧ passing o' = 1%Z)
  ∧ (∃ o', EventFilter___call__ nat nat string hook_target 7 (mkFrame synced_gate [])
           = (mkFrame o' [CallHook "count"; CallHook "sync"],
              Raise (Exception "disk full"))
       ∧ total o' = 1%Z ∧ passing o' = 0%Z).
Proof.
  destruct (EventFilter_passthrough_skips_passes nat nat string hook_target
              counted_gate 7 [] eq_refl)
    as (o1 & cs1 & r1 & Hcall1 & Htotal1 & _ & Hall & _).
  destruct (EventFilter_passthrough_skips_passes nat nat string hook_target
              synced_gate 7 [] eq_refl)
    as (o2 & cs2 & r2 & Hcall2 & Htotal2 & _ & _ & Hraise).
  split.
  - destruct Hall as (-> & Hpassing & ->); [repeat constructor|].
    exists o1. split; [exact Hcall1|]. split; [exact Htotal1|exact Hpassing].
  - destruct (Hraise ["count"] "sync" ["log"] (Exception "disk full") eq_refl)
      as (-> & Hpassing & ->); [repeat constructor|reflexivity|].
    exists o2. split; [exact Hcall2|]. split; [exact Htotal2|exact Hpassing].
Defined.

Lemma ObjectFilter_call_counts_witness :
  (∃ o', ObjectFilter___call__ nat nat string 0 [1; 3] (mkFrame (keep_even true true) [])
         = (mkFrame o' [], Return [1; 3])
     ∧ total o' = 1%Z ∧ passing o' = 1%Z)
  ∧ (∃ o', ObjectFilter___call__ nat nat string 0 [1; 2; 3; 4]
             (mkFrame (keep_even false false) [])
           = (mkFrame o' [CallFiltered 0 [1; 2; 3; 4]], Return [2; 4])
       ∧ total o' = 4%Z ∧ passing o' = 2%Z).
Proof.
  pose proof (ObjectFilter_call_counts nat nat string (keep_even true true) 0 [1; 3] [])
    as [Hpass _].
  pose proof (ObjectFilter_call_counts nat nat string (keep_even false false)
                0 [1; 2; 3; 4] []) as [_ Hnarrow].
  split.
  - exact (Hpass eq_refl).
  - exact (Hnarrow [2; 4] eq_refl eq_refl).
Defined.

Lemma evaluation_counts_before_raising_witness :
  (∃ o' t' r, EventFilter___call__ nat nat string hook_target 7 (mkFrame unfinished_cut [])
              = (mkFrame o' t', r)
     ∧ total o' = 1%Z ∧ details o' = ∅
     ∧ r = Raise NotImplementedError ∧ passing o' = 0%Z ∧ t' = [CallPasses 7])
  ∧ (∃ o' t' r, ObjectFilter___call__ nat nat string 7 [1; 2; 3]
                  (mkFrame unfinished_selection [])
                = (mkFrame o' t', r)
       ∧ total o' = 3%Z ∧ details o' = ∅
       ∧ r = Raise NotImplementedError ∧ passing o' = 0%Z
       ∧ t' = [CallFiltered 7 [1; 2; 3]]).
Proof.
  pose proof (evaluation_counts_before_raising nat nat string hook_target) as (HE & HO & _).
  split.
  - destruct (HE unfinished_cut 7 [] NotImplementedError eq_refl)
      as (o' & t' & r & Hcall & Htotal & Hdetails & Hraise).
    destruct (Hraise eq_refl) as (Hr & Hpassing & Ht).
    exists o', t', r. repeat split; assumption.
  - destruct (HO unfinished_selection 7 [1; 2; 3] [] NotImplementedError eq_refl)
      as (o' & t' & r & Hcall & Htotal & Hdetails & Hraise).
    destruct (Hraise eq_refl) as (Hr & Hpassing & Ht).
    exists o', t', r. repeat split; assumption.
Defined.

Lemma keep_even_narrowing (count_events passthrough : bool) :
  ∀ event c c',
    filtered (keep_even count_events passthrough) event c = Return c' →
    length c' ≤ length c.
Proof.
  intros event c c' Hf. simpl in Hf. inversion Hf. apply length_filter.
Qed.

Lemma passing_le_total_after_calls_witness :
  (0 ≤ passing (EventFilter_run nat nat string hook_target has_lepton some_events)
     ≤ total (EventFilter_run nat nat string hook_target has_lepton some_events))%Z
  ∧ (0 ≤ passing (ObjectFilter_run nat nat string (keep_even false false)
                    some_collections)
       ≤ total (ObjectFilter_run nat nat string (keep_even false false)
                  some_collections))%Z.
Proof.
  pose proof (passing_le_total_after_calls nat nat string hook_target) as [HE HO].
  split.
  - exact (HE has_lepton some_events eq_refl eq_refl).
  - exact (HO (keep_even false false) some_collections
             eq_refl eq_refl (keep_even_narrowing false false)).
Defined.

(** ** Evaluation of a list *)

Lemma NoDup_stages : NoDup [0; 1; 2].
Proof. apply (bool_decide_unpack (NoDup [0; 1; 2])). exact I. Qed.

Lemma stages_start_at_zero (a : addr) :
  total (objects stages a) = 0%Z ∧ passing (objects stages a) = 0%Z.
Proof. destruct a as [|[|a]]; split; reflexivity. Qed.

Lemma EventFilterList_short_circuit_witness :
  (∃ w', EventFilterList___call__ nat nat string hook_target [0; 1; 2] 60 stages = (w', Return false)
     ∧ stages_called nat nat string (calls w') = [0; 1]
     ∧ objects w' 2 = objects stages 2)
  ∧ (∃ w', EventFilterList___call__ nat nat string hook_target [0; 1; 2] 10 stages = (w', Return true)
       ∧ stages_called nat nat string (calls w') = [0; 1; 2]).
Proof.
  pose proof (EventFilterList_short_circuit nat nat string hook_target [0; 1; 2] 60 stages)
    as [Hstop _].
  pose proof (EventFilterList_short_circuit nat nat string hook_target [0; 1; 2] 10 stages)
    as [_ Hall].
  split.
  - destruct (Hstop 1 1 eq_refl eq_refl) as (w' & Hcall & Hcalled & _ & Hlater).
    { intros [|j] b Hj Hb; [inversion Hb; reflexivity|lia]. }
    exists w'. split; [exact Hcall|]. split; [exact Hcalled|].
    apply (Hlater NoDup_stages 2 2); [lia|reflexivity].
  - apply Hall. intros [|[|[|j]]] b Hb; inversion Hb; reflexivity.
Defined.

Lemma cut_flow_chain_witness :
  total (objects (EventFilterList_run nat nat string hook_target [0; 1; 2] stages some_events) 0)
    = 4%Z
  ∧ total (objects (EventFilterList_run nat nat string hook_target [0; 1; 2] stages some_events) 1)
    = passing (objects (EventFilterList_run nat nat string hook_target [0; 1; 2] stages some_events) 0)
  ∧ total (objects (EventFilterList_run nat nat string hook_target [0; 1; 2] stages some_events) 2)
    = passing (objects (EventFilterList_run nat nat string hook_target [0; 1; 2] stages some_events) 1).
Proof.
  destruct (cut_flow_chain nat nat string hook_target [0; 1; 2] stages some_events
              NoDup_stages (λ a _, stages_start_at_zero a)) as [Hhead Hchain].
  split; [exact (Hhead 0 eq_refl)|].
  split; [exact (Hchain 0 0 1 eq_refl eq_refl)|exact (Hchain 1 1 2 eq_refl eq_refl)].
Defined.

(** The scenario of a hundred events, eighty with a lepton and fifty of
    those above the cut. *)
Example cut_flow_of_hundred_events :
  let w := EventFilterList_run nat nat string hook_target [0; 1] stages (seq 0 100) in
  (total (objects w 0), passing (objects w 0)) = (100%Z, 80%Z)
  ∧ (total (objects w 1), passing (objects w 1)) = (80%Z, 50%Z).
Proof. vm_compute. split; reflexivity. Qed.

(** A list may hold the same stage object at two positions (nothing in
    [append] prevents it).  The list [[2; 2]] has length two and its stages
    start at zero; after one event the [total] of its first stage is two. *)
Lemma shared_stage_counts_twice :
  [2; 2] !! 0 = Some 2
  ∧ total (objects stages 2) = 0%Z
  ∧ passing (objects stages 2) = 0%Z
  ∧ Z.of_nat (length [7]) = 1%Z
  ∧ total (objects (EventFilterList_run nat nat string hook_target [2; 2] stages [7]) 2) = 2%Z.
Proof. repeat split. Qed.

(** In the list [[2; 0; 2]] the event 90 passes the first stage and is
    rejected by the second, so the third is not called; being the object of
    the first position, it has counted the event all the same. *)
Lemma shared_stage_changes_after_rejection :
  returns nat nat string hook_target (objects stages 2) 90 = Return true
  ∧ returns nat nat string hook_target (objects stages 0) 90 = Return false
  ∧ (EventFilterList___call__ nat nat string hook_target [2; 0; 2] 90 stages).2 = Return false
  ∧ [2; 0; 2] !! 2 = Some 2
  ∧ total (objects stages 2) = 0%Z
  ∧ total (objects (EventFilterList___call__ nat nat string hook_target [2; 0; 2] 90 stages).1 2)
    = 1%Z.
Proof. repeat split. Qed.

(** ** Further runs *)

Definition lepton_A_detailed : Filter string :=
  mkFilter 100 80 {[ "no_track" := 3%Z ]} "has_lepton" None false.
(** The second stage has no [passes] of its own. *)
Definition stages_unfinished : world nat nat string :=
  mkWorld (λ a, match a with
                | 0 => has_lepton
                | 1 => unfinished_cut
                | _ => pt_cut
                end) [].

(** An object filter that keeps the objects below a bound. *)
Definition keep_below (bound : nat) (count_events : bool) : ObjectFilter nat nat string :=
  mkObjectFilter (Filter___init__ string "below" None false) count_events
    (λ _ collection, Return (base.filter (λ x, x < bound) collection)).

Definition selections (count_events : bool) : oworld nat nat string :=
  mkOWorld (λ a, match a with
                 | 0 => keep_even count_events false
                 | _ => keep_below 4 count_events
                 end) [].

Lemma NoDup_two_stages : NoDup [0; 1].
Proof. apply (bool_decide_unpack (NoDup [0; 1])). exact I. Qed.

Lemma selections_narrow (count_events : bool) (a : addr) :
  narrowing nat nat string (ofilters (selections count_events) a).
Proof.
  intros event c c' Hf. destruct a as [|a]; simpl in Hf; inversion Hf;
    apply length_filter.
Qed.

Lemma Filter_add_newfilter_comm_witness :
  Filter_add_newfilter nat nat string lepton_A_detailed lepton_B_detailed
  = Filter_add_newfilter nat nat string lepton_B_detailed lepton_A_detailed.
Proof.
  apply (Filter_add_newfilter_comm nat nat string lepton_A_detailed lepton_B_detailed).
  - reflexivity.
  - simpl. rewrite !dom_singleton_L. reflexivity.
Defined.

Lemma EventFilterList_total_and_passing_witness :
  FilterList_total nat nat string
    (elements nat nat string [0; 1; 2]
       (EventFilterList_run nat nat string hook_target [0; 1; 2] stages some_events))
  = Return 4%Z
  ∧ FilterList_passing nat nat string
      (elements nat nat string [0; 1; 2]
         (EventFilterList_run nat nat string hook_target [0; 1; 2] stages some_events))
    = Return 2%Z.
Proof.
  destruct (EventFilterList_total_and_passing nat nat string hook_target [0; 1; 2] stages
              some_events NoDup_stages (λ a _, stages_start_at_zero a))
    as (Htotal & Hpassing & _).
  split; [exact Htotal|exact Hpassing].
Defined.

Lemma EventFilterList_raises_what_a_stage_raises_witness :
  ∃ w', EventFilterList___call__ nat nat string hook_target [0; 1; 2] 10 stages_unfinished
        = (w', Raise NotImplementedError)
    ∧ stages_called nat nat string (calls w') = [0; 1]
    ∧ objects w' 2 = pt_cut.
Proof.
  destruct (EventFilterList_raises_what_a_stage_raises nat nat string hook_target
              [0; 1; 2] 10 stages_unfinished 1 1 NotImplementedError
              eq_refl eq_refl)
    as (w' & Hcall & Hcalled & Hframe).
  { intros [|j] b Hj Hb; [inversion Hb; reflexivity|lia]. }
  exists w'. split; [exact Hcall|]. split; [exact Hcalled|].
  apply (Hframe 2). simpl. intros Hin.
  apply list_elem_of_In in Hin. simpl in Hin. lia.
Defined.

Lemma hooks_called_in_order_until_one_raises_witness :
  EventFilter___call__ nat nat string hook_target 90 (mkFrame has_lepton [])
    = (mkFrame (ef_update nat string (add_total string 1) has_lepton)
         [CallPasses 90], Return false)
  ∧ EventFilter___call__ nat nat string hook_target 10 (mkFrame has_lepton [])
    = (mkFrame (ef_update nat string (add_passing string 1)
                  (ef_update nat string (add_total string 1) has_lepton))
         [CallPasses 10; CallHook "count"; CallHook "log"], Return true)
  ∧ EventFilter___call__ nat nat string hook_target 10 (mkFrame synced_gate [])
    = (mkFrame (ef_update nat string (add_total string 1) synced_gate)
         [CallHook "count"; CallHook "sync"], Raise (Exception "disk full")).
Proof.
  pose proof (hooks_called_in_order_until_one_raises nat nat string hook_target
                has_lepton 90 []) as (Hno & _).
  pose proof (hooks_called_in_order_until_one_raises nat nat string hook_target
                has_lepton 10 []) as (_ & Hall & _).
  pose proof (hooks_called_in_order_until_one_raises nat nat string hook_target
                synced_gate 10 []) as (_ & _ & Hraise).
  split; [|split].
  - apply Hno. discriminate.
  - apply Hall; [reflexivity|repeat constructor].
  - apply (Hraise eq_refl ["count"] "sync" ["log"] (Exception "disk full"));
      [reflexivity|repeat constructor|reflexivity].
Defined.

Lemma ObjectFilterList_stops_at_first_empty_witness :
  (∃ w', ObjectFilterList___call__ nat nat string [0; 1; 0] 7 [6; 8] (selections false)
         = (w', Return [])
     ∧ stages_called nat nat string (ocalls w') = [0; 1])
  ∧ (∃ w', ObjectFilterList___call__ nat nat string [0; 1; 0] 7 [1; 2; 3; 4; 5; 6]
             (selections false)
           = (w', Return [2])
       ∧ stages_called nat nat string (ocalls w') = [0; 1; 0]).
Proof.
  destruct (ObjectFilterList_stops_at_first_empty nat nat string
              [0; 1; 0] 7 (selections false) [6; 8]) as (Hstop & _).
  destruct (ObjectFilterList_stops_at_first_empty nat nat string
              [0; 1; 0] 7 (selections false) [1; 2; 3; 4; 5; 6]) as (_ & Hend & _).
  split.
  - destruct (Hstop 1 1 [6; 8] (Return []) eq_refl eq_refl eq_refl
                (or_introl eq_refl)) as (w' & Hcall & Hcalled & _).
    exists w'. split; [exact Hcall|exact Hcalled].
  - destruct (Hend [2] eq_refl) as (w' & Hcall & Hcalled & _).
    exists w'. split; [exact Hcall|exact Hcalled].
Defined.

Lemma ObjectFilterList_returns_no_more_witness :
  (ObjectFilterList___call__ nat nat string [0; 1] 7 [1; 2; 3; 4; 5; 6]
     (selections false)).2 = Return [2]
  ∧ length [2] ≤ length [1; 2; 3; 4; 5; 6].
Proof.
  split; [reflexivity|].
  apply (ObjectFilterList_returns_no_more nat nat string [0; 1] 7 (selections false)
           [1; 2; 3; 4; 5; 6] [2]).
  - intros a _. apply selections_narrow.
  - reflexivity.
Defined.

Lemma ObjectFilterList_cut_flow_witness :
  total (ofilters (ObjectFilterList_run nat nat string [0; 1] (selections false)
                     some_collections) 0) = 5%Z
  ∧ total (ofilters (ObjectFilterList_run nat nat string [0; 1] (selections false)
                       some_collections) 1)
    = passing (ofilters (ObjectFilterList_run nat nat string [0; 1] (selections false)
                           some_collections) 0).
Proof.
  destruct (ObjectFilterList_cut_flow nat nat string [0; 1] false (selections false)
              some_collections NoDup_two_stages) as [Hhead Hchain].
  - intros [|a] _; reflexivity.
  - intros [|a] _; split; reflexivity.
  - split; [exact (Hhead 0 eq_refl)|exact (Hchain 0 0 1 eq_refl eq_refl)].
Defined.

(** Stages that count in different modes break the chain: the first counts
    two objects kept, the second one event seen. *)
Example ObjectFilterList_mixed_modes :
  let w := mkOWorld (λ a, match a with
                          | 0 => keep_even false false
                          | _ => keep_below 9 true
                          end) [] in
  passing (ofilters (ObjectFilterList_run nat nat string [0; 1] w some_collections) 0)
    = 2%Z
  ∧ total (ofilters (ObjectFilterList_run nat nat string [0; 1] w some_collections) 1)
    = 1%Z.
Proof. split; reflexivity. Qed.

(** A dictionary with a name and a total only. *)
Definition partial_state : state_dict :=
  mkState (Some "pt>20") (Some 8%Z) None (Some ∅).

Lemma setstate_missing_entry_witness :
  Filter___setstate__ string partial_state lepton_A
  = (mkFilter 8 80 ∅ "pt>20" None false, Raise KeyError).
Proof.
  pose proof (setstate_missing_entry string partial_state lepton_A)
    as (_ & _ & Hpassing & _).
  exact (Hpassing "pt>20" 8%Z eq_refl eq_refl eq_refl).
Defined.

Lemma FilterList_basic_snapshots_witness :
  (∃ states, FilterList_basic nat nat string (Return None) chunk_A = Return states
     ∧ length states = 2
     ∧ states !! 1
       = Some (Some (mkState (Some "pt>20") (Some 80%Z) (Some 50%Z) (Some ∅))))
  ∧ (∃ states, FilterList_basic nat nat string (Return None) (chunk_A ++ [PyNone])
               = Return states
       ∧ length states = 3
       ∧ states !! 2 = Some None)
  ∧ FilterList_basic nat nat string (Raise AttributeError) (chunk_A ++ [PyNone])
    = Raise AttributeError.
Proof.
  pose proof (FilterList_basic_snapshots nat nat string (Return None) chunk_A)
    as (Hall & _).
  pose proof (FilterList_basic_snapshots nat nat string (Return None)
                (chunk_A ++ [PyNone])) as (_ & Hnone & _).
  pose proof (FilterList_basic_snapshots nat nat string (Raise AttributeError)
                (chunk_A ++ [PyNone])) as (_ & _ & Hraise).
  split; [|split].
  - destruct Hall as (states & Hbasic & Hlen & Hstates).
    { repeat constructor. }
    exists states. split; [exact Hbasic|]. split; [exact Hlen|].
    destruct (Hstates 1 _ eq_refl) as (f & Hf & Hstate).
    inversion Hf; subst f. exact Hstate.
  - destruct (Hnone None eq_refl) as (states & Hbasic & Hlen & Hstates).
    exists states. split; [exact Hbasic|]. split; [exact Hlen|].
    exact (Hstates 2 PyNone eq_refl).
  - apply (Hraise AttributeError eq_refl).
    apply Exists_app. right. left. reflexivity.
Defined.

